(** * quacc: VASP recipes and the scratch-directory execution wrapper

    A shallow embedding of
      - [quacc/util/calc.py]          ([run_calc]),
      - [quacc/recipes/vasp/core.py]  ([StaticJob], [RelaxJob], [DoubleRelaxJob]),
      - [quacc/recipes/vasp/qmof.py]  ([QMOFMaker] and its four stage functions),
    together with the properties of the execution core that can be settled
    on that code. *)

From Stdlib Require Import ZArith Lia.
From stdpp Require Import base option list strings gmap.

Local Open Scope string_scope.
Local Open Scope Z_scope.
Local Open Scope list_scope.

(** ** Python values that occur in calculator keyword dictionaries *)

(** Floats are only ever carried around as literals by the recipes (no
    arithmetic is done on them), so a float literal is kept as mantissa and
    decimal exponent: [PFloat (-2) (-2)] is [-0.02], [PFloat 1 (-4)] is [1e-4]. *)
#[warnings="-register-all"]
Inductive pyval : Type :=
| PNone
| PBool (b : bool)
| PInt (z : Z)
| PFloat (m e : Z)
| PStr (s : string)
| PDict (d : list (string * pyval)).

(** A Python [dict] with string keys.  Insertion order is observable in
    Python, so the entries are kept in order. *)
Definition Dict : Type := list (string * pyval).

Definition is_none (v : pyval) : bool :=
  match v with PNone => true | _ => false end.

Module PyDict.

Definition keys (d : Dict) : list string := map fst d.

(** [d.get(k)] *)
Fixpoint get (k : string) (d : Dict) : option pyval :=
  match d with
  | [] => None
  | (k', v) :: d' => if String.eqb k k' then Some v else get k d'
  end.

(** [d[k] = v]: an existing key keeps its position, a new key goes last. *)
Fixpoint set (k : string) (v : pyval) (d : Dict) : Dict :=
  match d with
  | [] => [(k, v)]
  | (k', v') :: d' =>
      if String.eqb k k' then (k', v) :: d' else (k', v') :: set k v d'
  end.

(** [d.update(u)] *)
Definition update (d u : Dict) : Dict :=
  fold_left (fun acc kv => set kv.1 kv.2 acc) u d.

(** [del d[k]] for a key that is present (the only use in the recipes is
    [del defaults["lreal"]] on a literal that contains it). *)
Definition del (k : string) (d : Dict) : Dict :=
  List.filter (fun kv => negb (String.eqb k kv.1)) d.

(** [{k: v for k, v in d.items() if v is not None}] *)
Definition remove_none (d : Dict) : Dict :=
  List.filter (fun kv => negb (is_none kv.2)) d.

(** No value of the mapping is [None]. *)
Definition none_free (d : Dict) : Prop :=
  Forall (fun kv => is_none kv.2 = false) d.

End PyDict.

(** Modelled from the spec: [quacc.util.basics.merge_dicts] is imported by
    both recipe modules, but [quacc/util/basics.py] is not among the modules
    embedded here.
    Spec 4.1: the layers are merged left to right, a later layer strictly
    overrides an earlier one, the key order of the result is the order of
    first occurrence across the layers, and with [remove_none] every key
    whose final value is [None] is deleted from the result.  The function has
    no side effect on its arguments. *)
Definition merge_dicts (layers : list Dict) (remove_none : bool) : Dict :=
  let merged :=
    match layers with
    | [] => []
    | d :: ds => fold_left PyDict.update ds d
    end in
  if remove_none then PyDict.remove_none merged else merged.

(** [self.swaps or {}] *)
Definition or_empty (swaps : option Dict) : Dict :=
  match swaps with
  | Some d => d
  | None => []
  end.

(** ** The literal [defaults] dictionaries of the recipes *)

Module Defaults.

(** core.py, [StaticJob.make] *)
Definition static : Dict :=
  [ ("ismear", PInt (-5)); ("isym", PInt 2); ("laechg", PBool true);
    ("lcharg", PBool true); ("lwave", PBool true); ("nedos", PInt 5001);
    ("nsw", PInt 0); ("sigma", PFloat 5 (-2)) ].

(** core.py, [RelaxJob.make] *)
Definition relax (volume_relax : bool) : Dict :=
  [ ("ediffg", PFloat (-2) (-2));
    ("isif", PInt (if volume_relax then 3 else 2));
    ("ibrion", PInt 2); ("ismear", PInt 0); ("isym", PInt 0);
    ("lcharg", PBool false); ("lwave", PBool false); ("nsw", PInt 200);
    ("sigma", PFloat 5 (-2)) ].

(** core.py, [DoubleRelaxJob.make] *)
Definition double_relax_job (volume_relax : bool) : Dict :=
  [ ("ediffg", PFloat (-2) (-2));
    ("isif", PInt (if volume_relax then 3 else 2));
    ("ibrion", PInt 2); ("ismear", PInt 0); ("isym", PInt 0);
    ("lcharg", PBool false); ("lwave", PBool true); ("nsw", PInt 200);
    ("sigma", PFloat 5 (-2)) ].

(** qmof.py, [prerelax] *)
Definition prerelax : Dict :=
  [ ("auto_kpts", PDict [("grid_density", PInt 100)]);
    ("ediff", PFloat 1 (-4)); ("encut", PNone); ("lcharg", PBool false);
    ("lreal", PStr "auto"); ("lwave", PBool true); ("nelm", PInt 225);
    ("nsw", PInt 0) ].

(** qmof.py, [loose_relax_positions] *)
Definition loose_relax_positions : Dict :=
  [ ("auto_kpts", PDict [("grid_density", PInt 100)]);
    ("ediff", PFloat 1 (-4)); ("ediffg", PFloat (-5) (-2));
    ("encut", PNone); ("isif", PInt 2); ("lcharg", PBool false);
    ("lreal", PStr "auto"); ("lwave", PBool true); ("nsw", PInt 250) ].

(** qmof.py, [loose_relax_volume] *)
Definition loose_relax_volume : Dict :=
  [ ("auto_kpts", PDict [("grid_density", PInt 100)]);
    ("isif", PInt 3); ("lcharg", PBool false); ("lreal", PStr "auto");
    ("lwave", PBool true); ("nsw", PInt 500) ].

(** qmof.py, [double_relax] *)
Definition double_relax (volume_relax : bool) : Dict :=
  [ ("isif", PInt (if volume_relax then 3 else 2));
    ("lcharg", PBool false); ("lreal", PStr "auto"); ("lwave", PBool true);
    ("nsw", PInt (if volume_relax then 500 else 250)) ].

End Defaults.

(** The [flags] each recipe resolves: [merge_dicts(defaults, swaps,
    remove_none=True)] after [swaps = swaps or {}]. *)
Module Flags.

Definition static (swaps : option Dict) : Dict :=
  merge_dicts [Defaults.static; or_empty swaps] true.

Definition relax (volume_relax : bool) (swaps : option Dict) : Dict :=
  merge_dicts [Defaults.relax volume_relax; or_empty swaps] true.

Definition double_relax_job (volume_relax : bool) (swaps : option Dict) : Dict :=
  merge_dicts [Defaults.double_relax_job volume_relax; or_empty swaps] true.

Definition prerelax (swaps : option Dict) : Dict :=
  merge_dicts [Defaults.prerelax; or_empty swaps] true.

Definition loose_relax_positions (swaps : option Dict) : Dict :=
  merge_dicts [Defaults.loose_relax_positions; or_empty swaps] true.

Definition loose_relax_volume (swaps : option Dict) : Dict :=
  merge_dicts [Defaults.loose_relax_volume; or_empty swaps] true.

(** first production relaxation of qmof [double_relax] *)
Definition double_relax_1 (volume_relax : bool) (swaps : option Dict) : Dict :=
  merge_dicts [Defaults.double_relax volume_relax; or_empty swaps] true.

(** second production relaxation, after [del defaults["lreal"]] *)
Definition double_relax_2 (volume_relax : bool) (swaps : option Dict) : Dict :=
  merge_dicts
    [PyDict.del "lreal" (Defaults.double_relax volume_relax); or_empty swaps]
    true.

End Flags.

(** ** Objects, store and the outside world *)

(** What the recipes treat as opaque: the geometry of a structure, what a
    solver run leaves on a calculator, the state of the filesystem and of the
    process (working directory, scratch sessions), the exceptions of the
    external collaborators, the summary record and an optimizer object. *)
Class Carrier : Type := {
  Geometry : Type;
  Results : Type;
  Ext : Type;
  ExtExn : Type;
  Summary : Type;
  OptState : Type
}.

Definition loc : Type := positive.

(** [calc.kpts] as ASE's Vasp calculator keeps it: [None], or the sequence
    it was given, a list or a tuple of integers.  When no grid is given,
    ASE's default is the tuple [(1, 1, 1)]. *)
Inductive Kpts : Type :=
| KNone
| KList (l : list Z)
| KTuple (l : list Z).

(** Python [k == l] and [k != l] against a list literal: a list is equal to
    it when it has the same items; a tuple is never equal to a list, nor is
    [None]. *)
Definition kpts_eq (k : Kpts) (l : list Z) : bool :=
  match k with
  | KList l' => bool_decide (l' = l)
  | KTuple _ => false
  | KNone => false
  end.

Definition kpts_ne (k : Kpts) (l : list Z) : bool := negb (kpts_eq k l).

Section Objects.
Context `{Carrier}.

(** The calculator attached to a structure: its solver directives (the flat
    keyword mapping), the resolved k-point grid and the results of the last
    run. *)
Record CalcObj : Type := {
  directives : Dict;
  kpts : Kpts;
  results : Results
}.

(** An [ase.Atoms] object: geometry and a reference to its calculator. *)
Record AtomsObj : Type := {
  geometry : Geometry;
  calc : option loc
}.

(** The Python store (objects by identity) and the outside world. *)
Record World : Type := {
  atoms_store : gmap loc AtomsObj;
  calc_store : gmap loc CalcObj;
  ext : Ext
}.

(** Exceptions.  [Dangling] is a reference to an object that is not in the
    store; Python cannot produce one, it only arises for an ill-formed
    initial store of the model. *)
Inductive Exn : Type :=
| ValueError (msg : string)
| AttributeError (msg : string)
| KeyError (key : string)
| External (e : ExtExn)
| Dangling.

(** Keyword arguments of [monty.tempfile.ScratchDir] as [run_calc] passes
    them. *)
Record ScratchCfg : Type := {
  rootpath : string;
  create_symbolic_link : bool;
  copy_from_current_on_enter : bool;
  copy_to_current_on_exit : bool;
  gzip_on_exit : bool;
  remove_symlink_on_exit : bool;
  delete_removed_files : bool
}.

(** Calls into external collaborators. *)
Inductive Call : Type :=
| CSmartVasp (atoms : loc) (preset : option string) (flags : Dict)
| CScratchEnter (cfg : ScratchCfg)
| CGetPotentialEnergy (atoms : loc)
| CScratchExit (cfg : ScratchCfg) (exc : option Exn)
| CBFGSLineSearch (atoms : loc) (logfile trajectory : string)
| CDynRun (atoms : loc) (fmax : pyval)
| CSummarize (atoms : loc) (additional_fields : Dict).

Inductive Ret : Type :=
| RUnit
| RBool (b : bool)
| RLoc (a : loc)
| ROpt (o : OptState)
| RSummary (s : Summary).

(** The interaction trace: entries of the stage functions of qmof.py and
    every call into a collaborator, with the world before and after it. *)
Inductive Event : Type :=
| Enter (fn : string)
| Called (c : Call) (before : World) (res : ExtExn + Ret) (after : World).

End Objects.

(** The collaborators themselves.  [SmartVasp], [summarize_run] (other modules
    of the package), the ASE solver trigger and optimizer, and monty's
    [ScratchDir] are taken as given: arbitrary functions of the world that may
    raise.  [os.getcwd] and [os.path.abspath] read the outside world and may
    raise as well (the working directory may be gone).  [ScratchDir_enter]
    stands for construction and [__enter__],
    [ScratchDir_exit] for [__exit__] with the pending exception and returns
    whether the exception is suppressed. *)
Class Collaborators `{Carrier} : Type := {
  os_name : string;
  SETTINGS_SCRATCH_DIR : option string;
  os_getcwd : Ext → ExtExn + string;
  os_path_abspath : string → Ext → ExtExn + string;
  SmartVasp : loc → option string → Dict → World → (ExtExn + loc) * World;
  get_potential_energy : loc → World → (ExtExn + unit) * World;
  ScratchDir_enter : ScratchCfg → Ext → (ExtExn + unit) * Ext;
  ScratchDir_exit : ScratchCfg → option Exn → Ext → (ExtExn + bool) * Ext;
  BFGSLineSearch : loc → string → string → World → (ExtExn + OptState) * World;
  dyn_run : loc → OptState → pyval → World → (ExtExn + unit) * World;
  summarize_run : loc → Dict → World → (ExtExn + Summary) * World;
  summary_atoms : Summary → option loc
}.

(** ** The exception-and-state monad of the embedding *)

Section Embedding.
Context `{Collaborators}.

(** A computation threads the world and the interaction trace and either
    returns or raises. *)
Definition St : Type := World * list Event.
Definition M (A : Type) : Type := St → (Exn + A) * St.

Definition ret {A} (x : A) : M A := fun s => (inr x, s).

Definition raise {A} (e : Exn) : M A := fun s => (inl e, s).

Definition bind {A B} (m : M A) (k : A → M B) : M B :=
  fun s =>
    match m s with
    | (inr x, s') => k x s'
    | (inl e, s') => (inl e, s')
    end.

Notation "'do' x <~ m ;; k" := (bind m (fun x => k))
  (at level 10, x name, m at level 99, k at level 200, only parsing).

(** Run a computation from a world with an empty trace. *)
Definition run {A} (m : M A) (w : World) : (Exn + A) * St := m (w, []).

(** Entry of a stage function (a ghost event, no effect on the world). *)
Definition enter (fn : string) : M unit :=
  fun '(w, tr) => (inr tt, (w, tr ++ [Enter fn])).

(** A call into a collaborator: the call is recorded with the world it saw
    and the world it left; what it raises is wrapped in [External]. *)
Definition call {A} (c : Call) (inj : A → Ret)
    (f : World → (ExtExn + A) * World) : M A :=
  fun '(w, tr) =>
    let '(r, w') := f w in
    let ev := Called c w (sum_map id inj r) w' in
    match r with
    | inr x => (inr x, (w', tr ++ [ev]))
    | inl e => (inl (External e), (w', tr ++ [ev]))
    end.

(** A collaborator that only acts on the outside world. *)
Definition on_ext {A} (f : Ext → (ExtExn + A) * Ext) (w : World) :
    (ExtExn + A) * World :=
  let '(r, e') := f (ext w) in
  (r, {| atoms_store := atoms_store w; calc_store := calc_store w; ext := e' |}).

(** *** Object access *)

(** [copy.deepcopy(atoms)]: a fresh Atoms object and, when a calculator is
    attached, a fresh copy of the calculator as well. *)
Definition deepcopy (atoms : loc) : M loc :=
  fun '(w, tr) =>
    match atoms_store w !! atoms with
    | None => (inl Dangling, (w, tr))
    | Some o =>
        let a' := fresh (dom (atoms_store w)) in
        match calc o with
        | None =>
            (inr a', ({| atoms_store := <[a' := o]> (atoms_store w);
                         calc_store := calc_store w;
                         ext := ext w |}, tr))
        | Some c =>
            match calc_store w !! c with
            | None => (inl Dangling, (w, tr))
            | Some co =>
                let c' := fresh (dom (calc_store w)) in
                (inr a',
                 ({| atoms_store :=
                       <[a' := {| geometry := geometry o; calc := Some c' |}]>
                         (atoms_store w);
                     calc_store := <[c' := co]> (calc_store w);
                     ext := ext w |}, tr))
            end
        end
    end.

(** [atoms.calc] *)
Definition get_calc (atoms : loc) : M (option loc) :=
  fun '(w, tr) =>
    match atoms_store w !! atoms with
    | None => (inl Dangling, (w, tr))
    | Some o => (inr (calc o), (w, tr))
    end.

(** [atoms.calc.kpts] *)
Definition calc_kpts (atoms : loc) : M Kpts :=
  do c <~ get_calc atoms ;;
  match c with
  | None => raise (AttributeError "kpts")
  | Some c =>
      fun '(w, tr) =>
        match calc_store w !! c with
        | None => (inl Dangling, (w, tr))
        | Some co => (inr (kpts co), (w, tr))
        end
  end.

(** The effect of [calc.set(key=value)] on a calculator: the directive is
    written into its keyword mapping. *)
Definition set_directive (key : string) (value : pyval) (co : CalcObj) : CalcObj :=
  {| directives := PyDict.set key value (directives co);
     kpts := kpts co;
     results := results co |}.

(** [atoms.calc.set(key=value)]: the calculator object is updated in place. *)
Definition calc_set (atoms : loc) (key : string) (value : pyval) : M unit :=
  do c <~ get_calc atoms ;;
  match c with
  | None => raise (AttributeError "set")
  | Some c =>
      fun '(w, tr) =>
        match calc_store w !! c with
        | None => (inl Dangling, (w, tr))
        | Some co =>
            (inr tt, ({| atoms_store := atoms_store w;
                         calc_store := <[c := set_directive key value co]> (calc_store w);
                         ext := ext w |}, tr))
        end
  end.

(** *** Calls *)

Definition call_SmartVasp (atoms : loc) (preset : option string) (flags : Dict) : M loc :=
  call (CSmartVasp atoms preset flags) RLoc (SmartVasp atoms preset flags).

Definition call_get_potential_energy (atoms : loc) : M unit :=
  call (CGetPotentialEnergy atoms) (fun _ => RUnit) (get_potential_energy atoms).

Definition call_BFGSLineSearch (atoms : loc) (logfile trajectory : string) : M OptState :=
  call (CBFGSLineSearch atoms logfile trajectory) ROpt
    (BFGSLineSearch atoms logfile trajectory).

Definition call_dyn_run (atoms : loc) (dyn : OptState) (fmax : pyval) : M unit :=
  call (CDynRun atoms fmax) (fun _ => RUnit) (dyn_run atoms dyn fmax).

Definition call_summarize_run (atoms : loc) (additional_fields : Dict) : M Summary :=
  call (CSummarize atoms additional_fields) RSummary
    (summarize_run atoms additional_fields).

(** [summary["atoms"]] *)
Definition summary_getitem_atoms (s : Summary) : M loc :=
  match summary_atoms s with
  | Some a => ret a
  | None => raise (KeyError "atoms")
  end.

(** [with ScratchDir(...): body].  [__exit__] runs when the body returns and
    when it raises; a pending exception is re-raised unless [__exit__]
    returns a true value; an exception of [__exit__] itself propagates.  If
    [__enter__] raises, neither the body nor [__exit__] runs. *)
Definition with_ScratchDir (cfg : ScratchCfg) (body : M unit) : M unit :=
  fun s =>
    match call (CScratchEnter cfg) (fun _ => RUnit) (on_ext (ScratchDir_enter cfg)) s with
    | (inl e, s1) => (inl e, s1)
    | (inr _, s1) =>
        match body s1 with
        | (inr _, s2) =>
            match call (CScratchExit cfg None) RBool
                    (on_ext (ScratchDir_exit cfg None)) s2 with
            | (inl e, s3) => (inl e, s3)
            | (inr _, s3) => (inr tt, s3)
            end
        | (inl x, s2) =>
            match call (CScratchExit cfg (Some x)) RBool
                    (on_ext (ScratchDir_exit cfg (Some x))) s2 with
            | (inl e, s3) => (inl e, s3)
            | (inr true, s3) => (inr tt, s3)
            | (inr false, s3) => (inl x, s3)
            end
        end
    end.

(** ** quacc/util/calc.py *)

(** A read of the outside world that may raise. *)
Definition read_ext {A} (f : Ext → ExtExn + A) : M A :=
  fun '(w, tr) =>
    match f (ext w) with
    | inr v => (inr v, (w, tr))
    | inl e => (inl (External e), (w, tr))
    end.

(** [scratch_dir or os.getcwd()]: [None] and the empty string are false, and
    only then is [os.getcwd()] called. *)
Definition dir_or_cwd (scratch_dir : option string) (x : Ext) : ExtExn + string :=
  match scratch_dir with
  | Some s => if String.eqb s "" then os_getcwd x else inr s
  | None => os_getcwd x
  end.

Definition scratch_dir_or_cwd (scratch_dir : option string) : M string :=
  read_ext (dir_or_cwd scratch_dir).

(** [os.path.abspath(path)] *)
Definition abspath (path : string) : M string :=
  read_ext (os_path_abspath path).

Definition scratch_cfg (root : string) (gzip copy_from_store_dir : bool) : ScratchCfg :=
  {| rootpath := root;
     create_symbolic_link := if String.eqb os_name "nt" then false else true;
     copy_from_current_on_enter := copy_from_store_dir;
     copy_to_current_on_exit := true;
     gzip_on_exit := gzip;
     remove_symlink_on_exit := true;
     delete_removed_files := false |}.

Definition run_calc (atoms : loc) (scratch_dir : option string)
    (gzip copy_from_store_dir : bool) : M loc :=
  do atoms <~ deepcopy atoms ;;
  do scratch_dir <~ scratch_dir_or_cwd scratch_dir ;;
  do c <~ get_calc atoms ;;
  match c with
  | None => raise (ValueError "Atoms object must have attached calculator.")
  | Some _ =>
      do root <~ abspath scratch_dir ;;
      do _ <~ with_ScratchDir (scratch_cfg root gzip copy_from_store_dir)
                (call_get_potential_energy atoms) ;;
      ret atoms
  end.

(** [run_calc(atoms)] with the default arguments
    [scratch_dir=SETTINGS.SCRATCH_DIR, gzip=True, copy_from_store_dir=False]. *)
Definition run_calc_default (atoms : loc) : M loc :=
  run_calc atoms SETTINGS_SCRATCH_DIR true false.

(** ** quacc/recipes/vasp/core.py *)

Record StaticJob : Type := {
  StaticJob_name : string;
  StaticJob_preset : option string;
  StaticJob_swaps : option Dict
}.

Definition StaticJob_make (self : StaticJob) (atoms : loc) : M Summary :=
  let swaps := or_empty (StaticJob_swaps self) in
  let defaults := Defaults.static in
  let flags := merge_dicts [defaults; swaps] true in
  do atoms <~ call_SmartVasp atoms (StaticJob_preset self) flags ;;
  do atoms <~ run_calc_default atoms ;;
  do summary <~ call_summarize_run atoms [("name", PStr (StaticJob_name self))] ;;
  ret summary.

Record RelaxJob : Type := {
  RelaxJob_name : string;
  RelaxJob_preset : option string;
  RelaxJob_volume_relax : bool;
  RelaxJob_swaps : option Dict
}.

Definition RelaxJob_make (self : RelaxJob) (atoms : loc) : M Summary :=
  let swaps := or_empty (RelaxJob_swaps self) in
  let defaults := Defaults.relax (RelaxJob_volume_relax self) in
  let flags := merge_dicts [defaults; swaps] true in
  do atoms <~ call_SmartVasp atoms (RelaxJob_preset self) flags ;;
  do atoms <~ run_calc_default atoms ;;
  do summary <~ call_summarize_run atoms [("name", PStr (RelaxJob_name self))] ;;
  ret summary.

Record DoubleRelaxJob : Type := {
  DoubleRelaxJob_name : string;
  DoubleRelaxJob_preset : option string;
  DoubleRelaxJob_volume_relax : bool;
  DoubleRelaxJob_swaps1 : option Dict;
  DoubleRelaxJob_swaps2 : option Dict
}.

(** Returns [{"relax1": summary1, "relax2": summary2}]. *)
Definition DoubleRelaxJob_make (self : DoubleRelaxJob) (atoms : loc) :
    M (Summary * Summary) :=
  let swaps1 := or_empty (DoubleRelaxJob_swaps1 self) in
  let swaps2 := or_empty (DoubleRelaxJob_swaps2 self) in
  let defaults := Defaults.double_relax_job (DoubleRelaxJob_volume_relax self) in
  (* Run first relaxation *)
  let flags := merge_dicts [defaults; swaps1] true in
  do atoms <~ call_SmartVasp atoms (DoubleRelaxJob_preset self) flags ;;
  do kpts1 <~ calc_kpts atoms ;;
  do atoms <~ run_calc_default atoms ;;
  do summary1 <~ call_summarize_run atoms [("name", PStr (DoubleRelaxJob_name self))] ;;
  (* Run second relaxation *)
  let flags := merge_dicts [defaults; swaps2] true in
  do atoms1 <~ summary_getitem_atoms summary1 ;;
  do atoms <~ call_SmartVasp atoms1 (DoubleRelaxJob_preset self) flags ;;
  do kpts2 <~ calc_kpts atoms ;;
  (* Use ISTART = 0 if this goes from vasp_gam --> vasp_std *)
  do _ <~ (if kpts_eq kpts1 [1; 1; 1] && kpts_ne kpts2 [1; 1; 1]
           then calc_set atoms "istart" (PInt 0)
           else ret tt) ;;
  do atoms <~ run_calc_default atoms ;;
  do summary2 <~ call_summarize_run atoms [("name", PStr (DoubleRelaxJob_name self))] ;;
  ret (summary1, summary2).

(** ** quacc/recipes/vasp/qmof.py *)

Definition prerelax (atoms : loc) (preset : option string) (swaps : option Dict)
    (fmax : pyval) : M loc :=
  do _ <~ enter "prerelax" ;;
  let swaps := or_empty swaps in
  let defaults := Defaults.prerelax in
  let flags := merge_dicts [defaults; swaps] true in
  do atoms <~ call_SmartVasp atoms preset flags ;;
  do dyn <~ call_BFGSLineSearch atoms "prerelax.log" "prerelax.traj" ;;
  do _ <~ call_dyn_run atoms dyn fmax ;;
  ret atoms.

Definition loose_relax_positions (atoms : loc) (preset : option string)
    (swaps : option Dict) : M loc :=
  do _ <~ enter "loose_relax_positions" ;;
  let swaps := or_empty swaps in
  let defaults := Defaults.loose_relax_positions in
  let flags := merge_dicts [defaults; swaps] true in
  do atoms <~ call_SmartVasp atoms preset flags ;;
  do atoms <~ run_calc_default atoms ;;
  ret atoms.

Definition loose_relax_volume (atoms : loc) (preset : option string)
    (swaps : option Dict) : M loc :=
  do _ <~ enter "loose_relax_volume" ;;
  let swaps := or_empty swaps in
  let defaults := Defaults.loose_relax_volume in
  let flags := merge_dicts [defaults; swaps] true in
  do atoms <~ call_SmartVasp atoms preset flags ;;
  do atoms <~ run_calc_default atoms ;;
  ret atoms.

Definition double_relax (atoms : loc) (preset : option string)
    (swaps : option Dict) (volume_relax : bool) : M loc :=
  do _ <~ enter "double_relax" ;;
  let swaps := or_empty swaps in
  let defaults := Defaults.double_relax volume_relax in
  (* Run first relaxation *)
  let flags := merge_dicts [defaults; swaps] true in
  do atoms <~ call_SmartVasp atoms preset flags ;;
  do kpts1 <~ calc_kpts atoms ;;
  do atoms <~ run_calc_default atoms ;;
  (* Reset LREAL *)
  let defaults := PyDict.del "lreal" defaults in
  (* Run second relaxation *)
  let flags := merge_dicts [defaults; swaps] true in
  do atoms <~ call_SmartVasp atoms preset flags ;;
  do kpts2 <~ calc_kpts atoms ;;
  (* Use ISTART = 0 if this goes from vasp_gam --> vasp_std *)
  do _ <~ (if kpts_eq kpts1 [1; 1; 1] && kpts_ne kpts2 [1; 1; 1]
           then calc_set atoms "istart" (PInt 0)
           else ret tt) ;;
  do atoms <~ run_calc_default atoms ;;
  ret atoms.

Record QMOFMaker : Type := {
  QMOFMaker_name : string;
  QMOFMaker_preset : option string;
  QMOFMaker_volume_relax : bool;
  QMOFMaker_swaps : option Dict
}.

Definition QMOFMaker_make (self : QMOFMaker) (atoms : loc) : M Summary :=
  let swaps := or_empty (QMOFMaker_swaps self) in
  (* 1. Pre-relaxation *)
  do atoms <~ prerelax atoms (QMOFMaker_preset self) (Some swaps) (PFloat 50 (-1)) ;;
  (* 2. Position relaxation (loose) *)
  do atoms <~ loose_relax_positions atoms (QMOFMaker_preset self) (Some swaps) ;;
  (* 3. Optional: Volume relaxation (loose) *)
  do atoms <~ (if QMOFMaker_volume_relax self
               then loose_relax_volume atoms (QMOFMaker_preset self) (Some swaps)
               else ret atoms) ;;
  (* 4. Double Relaxation *)
  do atoms <~ double_relax atoms (QMOFMaker_preset self) (Some swaps)
                (QMOFMaker_volume_relax self) ;;
  (* Make summary of run *)
  do summary <~ call_summarize_run atoms [("name", PStr (QMOFMaker_name self))] ;;
  ret summary.

(** ** Reading the interaction trace *)

(** The calculator attached to [atoms] in world [w]. *)
Definition calc_of (w : World) (atoms : loc) : option CalcObj :=
  match atoms_store w !! atoms with
  | Some o =>
      match calc o with
      | Some c => calc_store w !! c
      | None => None
      end
  | None => None
  end.

(** A structure as a value: its geometry and the calculator attached to it. *)
Definition structure_of (w : World) (atoms : loc) : option (Geometry * option CalcObj) :=
  match atoms_store w !! atoms with
  | Some o => Some (geometry o, calc_of w atoms)
  | None => None
  end.

(** How the solver is triggered: by [run_calc] through
    [atoms.get_potential_energy()], or by the optimizer of the
    pre-relaxation through [dyn.run(fmax=fmax)]. *)
Inductive Trigger : Type := ByRunCalc | ByOptimizer.

Definition is_solver_call (c : Call) : option (Trigger * loc) :=
  match c with
  | CGetPotentialEnergy a => Some (ByRunCalc, a)
  | CDynRun a _ => Some (ByOptimizer, a)
  | _ => None
  end.

(** One solver invocation: how it was triggered, the structure it was
    invoked on, that structure as it was at the invocation and as the
    invocation left it. *)
Record SolverRun : Type := {
  trigger : Trigger;
  receiver : loc;
  given : option (Geometry * option CalcObj);
  left : option (Geometry * option CalcObj)
}.

Fixpoint solver_runs (tr : list Event) : list SolverRun :=
  match tr with
  | [] => []
  | Called c before _ after :: tr' =>
      match is_solver_call c with
      | Some (t, a) =>
          {| trigger := t; receiver := a;
             given := structure_of before a;
             left := structure_of after a |} :: solver_runs tr'
      | None => solver_runs tr'
      end
  | _ :: tr' => solver_runs tr'
  end.

(** The structures handed to the stages: the argument of every [SmartVasp]
    call as it is when the call is made. *)
Fixpoint stage_inputs (tr : list Event) : list (loc * option (Geometry * option CalcObj)) :=
  match tr with
  | [] => []
  | Called (CSmartVasp a _ _) before _ _ :: tr' =>
      (a, structure_of before a) :: stage_inputs tr'
  | _ :: tr' => stage_inputs tr'
  end.

(** The calculator each successful [SmartVasp] call resolves. *)
Fixpoint resolved_calcs (tr : list Event) : list (option CalcObj) :=
  match tr with
  | [] => []
  | Called (CSmartVasp _ _ _) _ (inr (RLoc a)) after :: tr' =>
      calc_of after a :: resolved_calcs tr'
  | _ :: tr' => resolved_calcs tr'
  end.

(** The flags of every [SmartVasp] call. *)
Fixpoint stage_flags (tr : list Event) : list Dict :=
  match tr with
  | [] => []
  | Called (CSmartVasp _ _ flags) _ _ _ :: tr' => flags :: stage_flags tr'
  | _ :: tr' => stage_flags tr'
  end.

(** The stage functions entered. *)
Fixpoint entered (tr : list Event) : list string :=
  match tr with
  | [] => []
  | Enter fn :: tr' => fn :: entered tr'
  | _ :: tr' => entered tr'
  end.

(** The summaries made: the structure summarised and the record returned. *)
Fixpoint summaries (tr : list Event) : list (loc * Summary) :=
  match tr with
  | [] => []
  | Called (CSummarize a _) _ (inr (RSummary s)) _ :: tr' => (a, s) :: summaries tr'
  | _ :: tr' => summaries tr'
  end.

(** ** Properties of a trace *)

(** The cross-stage restart rule of a double relaxation, read off the trace
    of one: when the second solver invocation takes place, two calculators
    [c1] and [c2] have been resolved, and the calculator the second
    invocation sees is [c2] with [istart] set to 0 if the grid of [c1] is
    the list [[1, 1, 1]] and that of [c2] is not, and [c2] itself otherwise,
    so also when the grid of [c1] is the tuple [(1, 1, 1)]. *)
Definition restart_rule (tr : list Event) : Prop :=
  ∀ s2, solver_runs tr !! 1%nat = Some s2 →
    ∃ c1 c2 g c,
      resolved_calcs tr = [Some c1; Some c2] ∧
      given s2 = Some (g, Some c) ∧
      (kpts c1 = KList [1; 1; 1] → kpts c2 ≠ KList [1; 1; 1] →
         c = set_directive "istart" (PInt 0) c2 ∧
         PyDict.get "istart" (directives c) = Some (PInt 0)) ∧
      (kpts c1 ≠ KList [1; 1; 1] ∨ kpts c2 = KList [1; 1; 1] → c = c2).

(** Every stage after the first is handed the very object the previous
    solver invocation ran on, in the state that invocation left it in. *)
Definition handoff (tr : list Event) : Prop :=
  ∀ i x, stage_inputs tr !! S i = Some x →
    ∃ s, solver_runs tr !! i = Some s ∧ x = (receiver s, left s).

(** The same for the state only (the object may be another one). *)
Definition handoff_state (tr : list Event) : Prop :=
  ∀ i a st, stage_inputs tr !! S i = Some (a, st) →
    ∃ s, solver_runs tr !! i = Some s ∧ st = left s.

(** The second stage of a [DoubleRelaxJob] is handed [summary1["atoms"]],
    where [summary1] is the summary of the structure the first solver
    invocation ran on. *)
Definition handoff_through_summary (tr : list Event) : Prop :=
  ∀ a st, stage_inputs tr !! 1%nat = Some (a, st) →
    ∃ s sm, solver_runs tr !! 0%nat = Some s ∧
            summaries tr !! 0%nat = Some (receiver s, sm) ∧
            summary_atoms sm = Some a.

(** Assumption on the summarizer: the record it returns holds, under
    ["atoms"], a structure in the state of the structure it summarised. *)
Definition faithful_summarizer : Prop :=
  ∀ a fields w s w',
    summarize_run a fields w = (inr s, w') →
    ∃ a', summary_atoms s = Some a' ∧ structure_of w' a' = structure_of w a.

(** Assumption on the solver trigger: [atoms.get_potential_energy()] writes
    to its receiver and to the calculator attached to it, and to no other
    object that exists when it is called (it may create objects). *)
Definition solver_footprint : Prop :=
  ∀ a w r w',
    get_potential_energy a w = (r, w') →
    (∀ l, l ≠ a → is_Some (atoms_store w !! l) →
          atoms_store w' !! l = atoms_store w !! l) ∧
    (∀ l, (atoms_store w !! a) ≫= calc ≠ Some l → is_Some (calc_store w !! l) →
          calc_store w' !! l = calc_store w !! l).

End Embedding.

(** ** A small concrete instance of the collaborators

    Geometry is one integer, a solver run moves it by one and records the old
    value as its result, the outside world counts the open scratch sessions.
    The calculator wrapper attaches a fresh calculator that carries the flags
    and resolves the grid [n, n, n] from an integer flag ["kgrid"] (the
    single-point grid when the flag is missing).  A flag ["fail"] makes the
    solver raise. *)
Module Toy.

#[export] Instance carrier : Carrier := {|
  Geometry := Z;
  Results := option Z;
  Ext := nat;
  ExtExn := string;
  Summary := loc * Dict;
  OptState := unit
|}.

Definition grid_of (flags : Dict) : Kpts :=
  match PyDict.get "kgrid" flags with
  | Some (PInt n) => KList [n; n; n]
  | _ => KList [1; 1; 1]
  end.

Definition smart_vasp (a : loc) (preset : option string) (flags : Dict)
    (w : World) : (string + loc) * World :=
  match atoms_store w !! a with
  | None => (inl "no such structure", w)
  | Some o =>
      let c := fresh (dom (calc_store w)) in
      (inr a,
       {| atoms_store := <[a := {| geometry := geometry o; calc := Some c |}]> (atoms_store w);
          calc_store :=
            <[c := {| directives := flags; kpts := grid_of flags; results := None |}]>
              (calc_store w);
          ext := ext w |})
  end.

Definition solve (a : loc) (w : World) : (string + unit) * World :=
  match atoms_store w !! a with
  | None => (inl "no such structure", w)
  | Some o =>
      match calc o with
      | None => (inl "no calculator", w)
      | Some c =>
          match calc_store w !! c with
          | None => (inl "no calculator", w)
          | Some co =>
              match PyDict.get "fail" (directives co) with
              | Some _ => (inl "solver failed", w)
              | None =>
                  (inr tt,
                   {| atoms_store :=
                        <[a := {| geometry := geometry o + 1; calc := Some c |}]>
                          (atoms_store w);
                      calc_store :=
                        <[c := {| directives := directives co; kpts := kpts co;
                                  results := Some (geometry o) |}]> (calc_store w);
                      ext := ext w |})
              end
          end
      end
  end.

#[export] Instance collaborators : Collaborators := {|
  os_name := "posix";
  SETTINGS_SCRATCH_DIR := Some "/tmp";
  os_getcwd := fun _ => inr "/home/user";
  os_path_abspath := fun p _ => inr p;
  SmartVasp := smart_vasp;
  get_potential_energy := solve;
  ScratchDir_enter := fun _ n => (inr tt, S n);
  ScratchDir_exit := fun _ _ n => (inr false, Nat.pred n);
  BFGSLineSearch := fun _ _ _ w => (inr tt, w);
  dyn_run := fun a _ _ w => solve a w;
  summarize_run := fun a fields w => (inr (a, fields), w);
  summary_atoms := fun s => Some s.1
|}.

(** A store with one structure at address 1, no calculator attached. *)
Definition world0 : World :=
  {| atoms_store := {[ 1%positive := {| geometry := 10; calc := None |} ]};
     calc_store := ∅;
     ext := 0%nat |}.

(** A store with one structure at address 1 and its calculator at 1. *)
Definition world1 : World :=
  {| atoms_store := {[ 1%positive := {| geometry := 10; calc := Some 1%positive |} ]};
     calc_store := {[ 1%positive := {| directives := [("nsw", PInt 0)];
                                       kpts := KList [1; 1; 1];
                                       results := None |} ]};
     ext := 0%nat |}.

(** A double relaxation whose second stage asks for the grid [2, 2, 2]. *)
Definition double_job : DoubleRelaxJob :=
  {| DoubleRelaxJob_name := "VASP-DoubleRelax";
     DoubleRelaxJob_preset := None;
     DoubleRelaxJob_volume_relax := true;
     DoubleRelaxJob_swaps1 := None;
     DoubleRelaxJob_swaps2 := Some [("kgrid", PInt 2)] |}.

(** The cascade without volume relaxation and without user overrides. *)
Definition qmof_job : QMOFMaker :=
  {| QMOFMaker_name := "QMOF-Relax";
     QMOFMaker_preset := Some "QMOFSet";
     QMOFMaker_volume_relax := false;
     QMOFMaker_swaps := None |}.

(** The interaction traces of the two jobs on [world0]. *)
Definition double_trace : list Event :=
  (run (DoubleRelaxJob_make double_job 1%positive) world0).2.2.

Definition cascade_trace : list Event :=
  (run (QMOFMaker_make qmof_job 1%positive) world0).2.2.

End Toy.

(** ** Further readings of the interaction trace *)

Section Sessions.
Context `{Collaborators}.

(** The preset of every [SmartVasp] call. *)
Fixpoint stage_presets (tr : list Event) : list (option string) :=
  match tr with
  | [] => []
  | Called (CSmartVasp _ preset _) _ _ _ :: tr' => preset :: stage_presets tr'
  | _ :: tr' => stage_presets tr'
  end.

(** The keyword arguments of every scratch session that is opened or that
    fails to open. *)
Fixpoint sessions (tr : list Event) : list ScratchCfg :=
  match tr with
  | [] => []
  | Called (CScratchEnter cfg) _ _ _ :: tr' => cfg :: sessions tr'
  | _ :: tr' => sessions tr'
  end.

(** Scanning a trace with the number [d] of open scratch sessions: a session
    is only opened when none is open, [get_potential_energy] and the closing
    of a session only happen inside one, every other collaborator is only
    called outside.  The scan gives the number of sessions open at the end,
    or [None] when the trace breaks one of these rules. *)
Fixpoint session_depth (d : nat) (tr : list Event) : option nat :=
  match tr with
  | [] => Some d
  | Enter _ :: tr' => session_depth d tr'
  | Called c _ r _ :: tr' =>
      match c, d with
      | CScratchEnter _, O =>
          session_depth (match r with inr _ => 1%nat | inl _ => 0%nat end) tr'
      | CScratchExit _ _, S O => session_depth 0%nat tr'
      | CGetPotentialEnergy _, S O => session_depth 1%nat tr'
      | CSmartVasp _ _ _, O => session_depth 0%nat tr'
      | CBFGSLineSearch _ _ _, O => session_depth 0%nat tr'
      | CDynRun _ _, O => session_depth 0%nat tr'
      | CSummarize _ _, O => session_depth 0%nat tr'
      | _, _ => None
      end
  end.

(** The keyword arguments of a session opened by [run_calc(atoms)] with its
    default arguments, under some root. *)
Definition default_session (cfg : ScratchCfg) : Prop :=
  ∃ root, cfg = scratch_cfg root true false.

(** The root of the scratch session: [os.path.abspath(scratch_dir or
    os.getcwd())], or the exception [os.getcwd] or [os.path.abspath]
    raises. *)
Definition scratch_root (scratch_dir : option string) (x : Ext) : ExtExn + string :=
  match dir_or_cwd scratch_dir x with
  | inr dir => os_path_abspath dir x
  | inl e => inl e
  end.

(** The scratch session of [run_calc atoms scratch_dir gzip
    copy_from_store_dir] from world [w], read off its trace.  If the root
    cannot be computed, there is no session and no solver run, and the
    exception of [os.getcwd] or [os.path.abspath] is raised.  Otherwise the
    session is opened once, under that root, with a symbolic link unless the
    platform is ["nt"], with copy-back and link removal on, with
    delete-tracking off, and with [gzip] and [copy_from_store_dir] as given;
    if it opens, the solver is triggered once and the session is closed
    once, with the same arguments, and is told the exception of the solver
    if there is one. *)
Definition session_as_configured (atoms : loc) (scratch_dir : option string)
    (gzip copy_from_store_dir : bool) (w : World) : Prop :=
  match scratch_root scratch_dir (ext w) with
  | inl e =>
      (run (run_calc atoms scratch_dir gzip copy_from_store_dir) w).2.2 = [] ∧
      (run (run_calc atoms scratch_dir gzip copy_from_store_dir) w).1
        = inl (External e)
  | inr root =>
      let cfg := {| rootpath := root;
                    create_symbolic_link := negb (String.eqb os_name "nt");
                    copy_from_current_on_enter := copy_from_store_dir;
                    copy_to_current_on_exit := true;
                    gzip_on_exit := gzip;
                    remove_symlink_on_exit := true;
                    delete_removed_files := false |} in
      match (run (run_calc atoms scratch_dir gzip copy_from_store_dir) w).2.2 with
      | [Called (CScratchEnter cfg1) _ (inl _) _] => cfg1 = cfg
      | [Called (CScratchEnter cfg1) _ (inr _) _;
         Called (CGetPotentialEnergy _) _ rs _;
         Called (CScratchExit cfg2 exc) _ _ _] =>
          cfg1 = cfg ∧ cfg2 = cfg ∧
          exc = match rs with inl e => Some (External e) | inr _ => None end
      | _ => False
      end
  end.

(** What [run_calc] returns or raises, by the outcomes of the calls it
    makes: the exception of [os.getcwd] or [os.path.abspath], and then no
    call at all; else the exception of [__enter__]; else the exception of
    [__exit__]; else the copy, when the solver returned or [__exit__]
    suppressed its exception; else the exception of the solver. *)
Definition outcome_propagated (atoms : loc) (scratch_dir : option string)
    (gzip copy_from_store_dir : bool) (w : World) : Prop :=
  match (run (run_calc atoms scratch_dir gzip copy_from_store_dir) w).2.2 with
  | [] =>
      ∃ e, scratch_root scratch_dir (ext w) = inl e ∧
           (run (run_calc atoms scratch_dir gzip copy_from_store_dir) w).1
             = inl (External e)
  | [Called (CScratchEnter _) _ (inl e) _] =>
      (run (run_calc atoms scratch_dir gzip copy_from_store_dir) w).1
        = inl (External e)
  | [Called (CScratchEnter _) _ (inr _) _;
     Called (CGetPotentialEnergy a') _ rs _;
     Called (CScratchExit _ _) _ rx _] =>
      (run (run_calc atoms scratch_dir gzip copy_from_store_dir) w).1 =
        match rx, rs with
        | inl e', _ => inl (External e')
        | inr _, inr _ => inr a'
        | inr (RBool true), inl _ => inr a'
        | inr _, inl e => inl (External e)
        end
  | _ => False
  end.

End Sessions.

(** The concrete instance with a summarizer whose record has no ["atoms"]
    entry, on a platform without symbolic links. *)
Module ToyNoAtoms.

#[export] Instance carrier : Carrier := Toy.carrier.

#[export] Instance collaborators : Collaborators := {|
  os_name := "nt";
  SETTINGS_SCRATCH_DIR := None;
  os_getcwd := fun _ => inr "C:/work";
  os_path_abspath := fun p _ => inr p;
  SmartVasp := Toy.smart_vasp;
  get_potential_energy := Toy.solve;
  ScratchDir_enter := fun _ n => (inr tt, S n);
  ScratchDir_exit := fun _ _ n => (inr false, Nat.pred n);
  BFGSLineSearch := fun _ _ _ w => (inr tt, w);
  dyn_run := fun a _ _ w => Toy.solve a w;
  summarize_run := fun a fields w => (inr (a, fields), w);
  summary_atoms := fun _ => None
|}.

End ToyNoAtoms.

(** The concrete instance with ASE's default grid: the calculator wrapper
    leaves the tuple [(1, 1, 1)] on the calculator when the flags give no
    grid, and the list [[n, n, n]] when they give ["kgrid"]. *)
Module ToyAse.

#[export] Instance carrier : Carrier := Toy.carrier.

Definition grid_of (flags : Dict) : Kpts :=
  match PyDict.get "kgrid" flags with
  | Some (PInt n) => KList [n; n; n]
  | _ => KTuple [1; 1; 1]
  end.

Definition smart_vasp (a : loc) (preset : option string) (flags : Dict)
    (w : World) : (string + loc) * World :=
  match atoms_store w !! a with
  | None => (inl "no such structure", w)
  | Some o =>
      let c := fresh (dom (calc_store w)) in
      (inr a,
       {| atoms_store := <[a := {| geometry := geometry o; calc := Some c |}]> (atoms_store w);
          calc_store :=
            <[c := {| directives := flags; kpts := grid_of flags; results := None |}]>
              (calc_store w);
          ext := ext w |})
  end.

#[export] Instance collaborators : Collaborators := {|
  os_name := "posix";
  SETTINGS_SCRATCH_DIR := Some "/tmp";
  os_getcwd := fun _ => inr "/home/user";
  os_path_abspath := fun p _ => inr p;
  SmartVasp := smart_vasp;
  get_potential_energy := Toy.solve;
  ScratchDir_enter := fun _ n => (inr tt, S n);
  ScratchDir_exit := fun _ _ n => (inr false, Nat.pred n);
  BFGSLineSearch := fun _ _ _ w => (inr tt, w);
  dyn_run := fun a _ _ w => Toy.solve a w;
  summarize_run := fun a fields w => (inr (a, fields), w);
  summary_atoms := fun s => Some s.1
|}.

(** The interaction trace of [Toy.double_job] on [Toy.world0] with this
    wrapper: the first stage gives no grid, the second asks for
    [[2, 2, 2]]. *)
Definition double_trace : list Event :=
  (run (DoubleRelaxJob_make Toy.double_job 1%positive) Toy.world0).2.2.

End ToyAse.

(** The concrete instance whose working directory is gone: [os.getcwd]
    raises. *)
Module ToyNoCwd.

#[export] Instance carrier : Carrier := Toy.carrier.

#[export] Instance collaborators : Collaborators := {|
  os_name := "posix";
  SETTINGS_SCRATCH_DIR := None;
  os_getcwd := fun _ => inl "FileNotFoundError";
  os_path_abspath := fun p _ => inr p;
  SmartVasp := Toy.smart_vasp;
  get_potential_energy := Toy.solve;
  ScratchDir_enter := fun _ n => (inr tt, S n);
  ScratchDir_exit := fun _ _ n => (inr false, Nat.pred n);
  BFGSLineSearch := fun _ _ _ w => (inr tt, w);
  dyn_run := fun a _ _ w => Toy.solve a w;
  summarize_run := fun a fields w => (inr (a, fields), w);
  summary_atoms := fun s => Some s.1
|}.

End ToyNoCwd.

(** The cascade with volume relaxation, on the first concrete instance. *)
Module ToyVolume.

Definition qmof_job : QMOFMaker :=
  {| QMOFMaker_name := "QMOF-Relax";
     QMOFMaker_preset := Some "QMOFSet";
     QMOFMaker_volume_relax := true;
     QMOFMaker_swaps := None |}.

End ToyVolume.

(** * Properties *)

(** ** Dictionaries and the merge *)

Module PyDictFacts.
Import PyDict.

Lemma get_set_eq k v d : get k (set k v d) = Some v.
Proof.
  induction d as [|[k' v'] d IH]; simpl.
  - by rewrite String.eqb_refl.
  - destruct (String.eqb k k') eqn:E; simpl; rewrite E; [done | exact IH].
Qed.

Lemma get_set_ne k k' v d : k ≠ k' → get k (set k' v d) = get k d.
Proof.
  intros Hne. induction d as [|[k0 v0] d IH]; simpl.
  - by apply String.eqb_neq in Hne as ->.
  - destruct (String.eqb k' k0) eqn:E; simpl.
    + apply String.eqb_eq in E as <-.
      by apply String.eqb_neq in Hne as ->.
    + by rewrite IH.
Qed.

Lemma update_nil d : update d [] = d.
Proof. reflexivity. Qed.

Lemma update_cons d k v u : update d ((k, v) :: u) = update (set k v d) u.
Proof. reflexivity. Qed.

(** A key the update does not mention keeps its value. *)
Lemma get_update_absent k u : ∀ d, get k u = None → get k (update d u) = get k d.
Proof.
  induction u as [|[k' v'] u IH]; intros d Hk; [done|].
  simpl in Hk. destruct (String.eqb k k') eqn:E; [done|].
  rewrite update_cons, IH by done.
  apply get_set_ne. by apply String.eqb_neq.
Qed.

Lemma remove_none_id d : none_free d → remove_none d = d.
Proof.
  induction 1 as [|[k v] d Hv _ IH]; [done|].
  unfold remove_none in *. simpl in *. by rewrite Hv, IH.
Qed.

Lemma get_remove_none_some k v d :
  get k d = Some v → is_none v = false → get k (remove_none d) = Some v.
Proof.
  intros Hget Hv. induction d as [|[k' v'] d IH]; [done|].
  unfold remove_none in *. simpl in *.
  destruct (String.eqb k k') eqn:E.
  - injection Hget as ->. rewrite Hv. simpl. by rewrite E.
  - destruct (is_none v'); simpl; [|rewrite E]; by apply IH.
Qed.

Lemma get_del_eq k d : get k (del k d) = None.
Proof.
  induction d as [|[k' v'] d IH]; [done|].
  unfold del in *. simpl.
  destruct (String.eqb k k') eqn:E; simpl; [|rewrite E]; exact IH.
Qed.

Lemma get_del_ne k k' d : k ≠ k' → get k (del k' d) = get k d.
Proof.
  intros Hne. induction d as [|[k0 v0] d IH]; [done|].
  unfold del in *. simpl.
  destruct (String.eqb k' k0) eqn:E; simpl.
  - apply String.eqb_eq in E as <-.
    by apply String.eqb_neq in Hne as ->.
  - by rewrite IH.
Qed.

Lemma set_del_comm k k' v d : k ≠ k' → set k v (del k' d) = del k' (set k v d).
Proof.
  intros Hne. assert (String.eqb k' k = false) as Hk'k
    by (apply String.eqb_neq; congruence).
  induction d as [|[k0 v0] d IH]; unfold del in *; simpl.
  - by rewrite Hk'k.
  - destruct (String.eqb k' k0) eqn:E, (String.eqb k k0) eqn:E'; simpl;
      rewrite ?E, ?E'; simpl; try (by rewrite IH).
    + apply String.eqb_eq in E, E'. congruence.
    + done.
Qed.

Lemma update_del_comm k u : ∀ d,
  get k u = None → update (del k d) u = del k (update d u).
Proof.
  induction u as [|[k' v'] u IH]; intros d Hk; [done|].
  simpl in Hk. destruct (String.eqb k k') eqn:E; [done|].
  rewrite !update_cons, <- IH by done.
  f_equal. apply set_del_comm. apply String.eqb_neq in E. congruence.
Qed.

Lemma remove_none_del_comm k d : remove_none (del k d) = del k (remove_none d).
Proof.
  induction d as [|[k' v'] d IH]; [done|].
  unfold remove_none, del in *. simpl.
  destruct (String.eqb k k') eqn:E, (is_none v') eqn:E2; simpl;
    rewrite ?E, ?E2; simpl; rewrite ?IH; done.
Qed.

(** Merging one override layer, unfolded. *)
Lemma merge_two d u : merge_dicts [d; u] true = remove_none (update d u).
Proof. reflexivity. Qed.

End PyDictFacts.

(** ** The interaction trace of the building blocks *)

Section Traces.
Context `{Collaborators}.

Lemma entered_app (t1 t2 : list Event) : entered (t1 ++ t2) = entered t1 ++ entered t2.
Proof.
  induction t1 as [|[fn|c b r a] t1 IH]; simpl; [done| |done]. by rewrite IH.
Qed.

Lemma stage_flags_app (t1 t2 : list Event) :
  stage_flags (t1 ++ t2) = stage_flags t1 ++ stage_flags t2.
Proof.
  induction t1 as [|[fn|c b r a] t1 IH]; simpl; [done|done|].
  destruct c; simpl; by rewrite ?IH.
Qed.

Lemma stage_inputs_app (t1 t2 : list Event) :
  stage_inputs (t1 ++ t2) = stage_inputs t1 ++ stage_inputs t2.
Proof.
  induction t1 as [|[fn|c b r a] t1 IH]; simpl; [done|done|].
  destruct c; simpl; by rewrite ?IH.
Qed.

Lemma resolved_calcs_app (t1 t2 : list Event) :
  resolved_calcs (t1 ++ t2) = resolved_calcs t1 ++ resolved_calcs t2.
Proof.
  induction t1 as [|[fn|c b r a] t1 IH]; simpl; [done|done|].
  destruct c; simpl; rewrite ?IH; try done.
  destruct r as [e|[]]; simpl; by rewrite ?IH.
Qed.

Lemma summaries_app (t1 t2 : list Event) :
  summaries (t1 ++ t2) = summaries t1 ++ summaries t2.
Proof.
  induction t1 as [|[fn|c b r a] t1 IH]; simpl; [done|done|].
  destruct c; simpl; rewrite ?IH; try done.
  destruct r as [e|[]]; simpl; by rewrite ?IH.
Qed.

Lemma solver_runs_app (t1 t2 : list Event) :
  solver_runs (t1 ++ t2) = solver_runs t1 ++ solver_runs t2.
Proof.
  induction t1 as [|[fn|c b r a] t1 IH]; simpl; [done|done|].
  destruct (is_solver_call c) as [[t l]|]; simpl; by rewrite IH.
Qed.

(** *** [run_calc] *)

Lemma structure_of_deepcopy (w : World) a o c co x :
  atoms_store w !! a = Some o → calc o = Some c → calc_store w !! c = Some co →
  structure_of
    {| atoms_store :=
         <[fresh (dom (atoms_store w)) :=
             {| geometry := geometry o;
                calc := Some (fresh (dom (calc_store w))) |}]> (atoms_store w);
       calc_store := <[fresh (dom (calc_store w)) := co]> (calc_store w);
       ext := x |} (fresh (dom (atoms_store w)))
  = structure_of w a.
Proof.
  intros Ho Hc Hco. unfold structure_of, calc_of. simpl.
  rewrite lookup_insert_eq, Ho. simpl. by rewrite lookup_insert_eq, Hc, Hco.
Qed.

(** [run_calc] step by step. *)
Lemma run_calc_eq a sd gz cp w tr :
  run_calc a sd gz cp (w, tr) =
  match atoms_store w !! a with
  | None => (inl Dangling, (w, tr))
  | Some o =>
      match calc o with
      | None =>
          let w1 := {| atoms_store := <[fresh (dom (atoms_store w)) := o]> (atoms_store w);
                       calc_store := calc_store w;
                       ext := ext w |} in
          match dir_or_cwd sd (ext w) with
          | inl e => (inl (External e), (w1, tr))
          | inr _ =>
              (inl (ValueError "Atoms object must have attached calculator."), (w1, tr))
          end
      | Some c =>
          match calc_store w !! c with
          | None => (inl Dangling, (w, tr))
          | Some co =>
              let w1 :=
                {| atoms_store :=
                     <[fresh (dom (atoms_store w)) :=
                         {| geometry := geometry o;
                            calc := Some (fresh (dom (calc_store w))) |}]> (atoms_store w);
                   calc_store := <[fresh (dom (calc_store w)) := co]> (calc_store w);
                   ext := ext w |} in
              match scratch_root sd (ext w) with
              | inl e => (inl (External e), (w1, tr))
              | inr root =>
                  bind (with_ScratchDir (scratch_cfg root gz cp)
                          (call_get_potential_energy (fresh (dom (atoms_store w)))))
                    (fun _ => ret (fresh (dom (atoms_store w)))) (w1, tr)
              end
          end
      end
  end.
Proof.
  unfold run_calc, bind at 1 2 3, deepcopy, scratch_dir_or_cwd, read_ext, get_calc,
    scratch_root.
  destruct (atoms_store w !! a) as [o|]; [|done].
  destruct (calc o) as [c|] eqn:Hc.
  - destruct (calc_store w !! c) as [co|]; [|done]. simpl.
    destruct (dir_or_cwd sd (ext w)) as [e|dir]; [done|].
    cbn [atoms_store]. rewrite lookup_insert_eq. cbn [calc].
    unfold bind at 1, abspath, read_ext. cbn [ext].
    by destruct (os_path_abspath dir (ext w)).
  - simpl. destruct (dir_or_cwd sd (ext w)) as [e|dir]; [done|].
    cbn [atoms_store]. by rewrite lookup_insert_eq, Hc.
Qed.

(** What a call of [run_calc] adds to the trace: nothing but collaborator
    calls of the scratch session and at most one solver invocation, on a
    copy that is, at the invocation, equal to the structure passed in and
    that is returned as the solver left it. *)
Lemma run_calc_trace a sd gz cp w tr r w' tr' :
  run_calc a sd gz cp (w, tr) = (r, (w', tr')) →
  ∃ new, tr' = tr ++ new ∧ entered new = [] ∧ stage_flags new = [] ∧
    stage_inputs new = [] ∧ resolved_calcs new = [] ∧ summaries new = [] ∧
    ((solver_runs new = [] ∧ ∃ e, r = inl e) ∨
     (∃ a', solver_runs new =
              [ {| trigger := ByRunCalc; receiver := a';
                   given := structure_of w a; left := structure_of w' a' |} ] ∧
            ∀ x, r = inr x → x = a')).
Proof.
  rewrite run_calc_eq.
  destruct (atoms_store w !! a) as [o|] eqn:Ho.
  2:{ intros [= <- <- <-]. exists []. rewrite app_nil_r. eauto 10. }
  destruct (calc o) as [c|] eqn:Hc.
  2:{ simpl. destruct (dir_or_cwd sd (ext w)); intros [= <- <- <-];
        exists []; rewrite app_nil_r; eauto 10. }
  destruct (calc_store w !! c) as [co|] eqn:Hco.
  2:{ intros [= <- <- <-]. exists []. rewrite app_nil_r. eauto 10. }
  simpl. destruct (scratch_root sd (ext w)) as [e|root].
  { intros [= <- <- <-]. exists []. rewrite app_nil_r. eauto 10. }
  set (a' := fresh (dom (atoms_store w))).
  set (c' := fresh (dom (calc_store w))).
  set (cfg := scratch_cfg _ gz cp).
  unfold bind, with_ScratchDir, call_get_potential_energy, call, on_ext, ret. simpl.
  destruct (ScratchDir_enter cfg (ext w)) as [[e|[]] x1] eqn:Hen; simpl.
  { intros [= <- <- <-]. eexists [_]. eauto 10. }
  match goal with
  | |- context [get_potential_energy a' ?w2] =>
      destruct (get_potential_energy a' w2) as [[e|[]] w3] eqn:Hgpe
  end; simpl.
  - destruct (ScratchDir_exit cfg (Some (External e)) (ext w3)) as [[e'|[]] x3] eqn:Hex;
      simpl; intros [= <- <- <-]; rewrite <- !app_assoc; eexists;
      (split; [reflexivity|]); simpl; repeat (split; [reflexivity|]);
      right; eexists; (split; [|by intros x [= <-]]);
      unfold a', c'; by erewrite structure_of_deepcopy.
  - destruct (ScratchDir_exit cfg None (ext w3)) as [[e'|b] x3] eqn:Hex;
      simpl; intros [= <- <- <-]; rewrite <- !app_assoc; eexists;
      (split; [reflexivity|]); simpl; repeat (split; [reflexivity|]);
      right; eexists; (split; [|by intros x [= <-]]);
      unfold a', c'; by erewrite structure_of_deepcopy.
Qed.

(** *** Reading and setting calculator attributes *)

Lemma structure_of_calc_of (w : World) a o :
  atoms_store w !! a = Some o → structure_of w a = Some (geometry o, calc_of w a).
Proof. intros Ho. unfold structure_of. by rewrite Ho. Qed.

Lemma calc_kpts_inv a w tr r s :
  calc_kpts a (w, tr) = (r, s) →
  s = (w, tr) ∧
  ((∃ e, r = inl e) ∨
   (∃ o co, r = inr (kpts co) ∧ atoms_store w !! a = Some o ∧ calc_of w a = Some co)).
Proof.
  unfold calc_kpts, bind, get_calc, calc_of, raise.
  destruct (atoms_store w !! a) as [o|] eqn:Ho; [|intros [= <- <-]; eauto].
  destruct (calc o) as [c|] eqn:Hc; [|intros [= <- <-]; eauto].
  destruct (calc_store w !! c) as [co|] eqn:Hco; intros [= <- <-]; eauto 10.
Qed.

Lemma calc_set_inv a key value w tr r w' tr' :
  calc_set a key value (w, tr) = (r, (w', tr')) →
  tr' = tr ∧
  ((∃ e, r = inl e ∧ w' = w) ∨
   (∃ o co, r = inr tt ∧ atoms_store w !! a = Some o ∧ calc_of w a = Some co ∧
            structure_of w' a = Some (geometry o, Some (set_directive key value co)))).
Proof.
  unfold calc_set, bind, get_calc, calc_of, raise.
  destruct (atoms_store w !! a) as [o|] eqn:Ho; [|intros [= <- <- <-]; eauto].
  destruct (calc o) as [c|] eqn:Hc; [|intros [= <- <- <-]; eauto].
  destruct (calc_store w !! c) as [co|] eqn:Hco; intros [= <- <- <-]; [|eauto].
  split; [done|]. right. exists o, co. repeat (split; [done|]).
  unfold structure_of, calc_of. simpl. by rewrite Ho, Hc, lookup_insert_eq.
Qed.

(** ** Symbolic execution of the recipes

    The recipes are executed call by call: each collaborator call is split
    into its two outcomes, and [run_calc] and the calculator accesses are
    replaced by what the lemmas above say about them. *)

Local Arguments run_calc_default : simpl never.
Local Arguments calc_kpts : simpl never.
Local Arguments calc_set : simpl never.
Local Arguments merge_dicts : simpl never.

Ltac exec_external :=
  let E := fresh "Hcall" in
  let e := fresh "e" in
  let x := fresh "x" in
  let w' := fresh "w" in
  match goal with
  | |- context [SmartVasp ?a ?p ?f ?w] =>
      destruct (SmartVasp a p f w) as [[e|x] w'] eqn:E
  | |- context [summarize_run ?a ?f ?w] =>
      destruct (summarize_run a f w) as [[e|x] w'] eqn:E
  | |- context [BFGSLineSearch ?a ?l ?t ?w] =>
      destruct (BFGSLineSearch a l t w) as [[e|x] w'] eqn:E
  | |- context [dyn_run ?a ?d ?f ?w] =>
      destruct (dyn_run a d f w) as [[e|x] w'] eqn:E
  | |- context [summary_atoms ?s] =>
      destruct (summary_atoms s) as [x|] eqn:E
  end.

Ltac exec_run_calc :=
  let E := fresh "Hrc" in
  let new := fresh "new" in
  let e := fresh "e" in
  let x := fresh "x" in
  let w' := fresh "w" in
  let tr' := fresh "tr" in
  let Hent := fresh "Hent" in
  let Hfl := fresh "Hfl" in
  let Hin := fresh "Hin" in
  let Hres := fresh "Hres" in
  let Hsums := fresh "Hsums" in
  let Hruns := fresh "Hruns" in
  let Hret := fresh "Hret" in
  let a' := fresh "a'" in
  match goal with
  | |- context [run_calc_default ?a (?w, ?tr)] =>
      destruct (run_calc_default a (w, tr)) as [[e|x] [w' tr']] eqn:E;
      apply run_calc_trace in E as
        (new & -> & Hent & Hfl & Hin & Hres & Hsums &
           [[Hruns [? [=]]] | [a' [Hruns Hret]]]);
      try (specialize (Hret _ eq_refl) as <-)
  end.

Ltac exec_kpts :=
  let E := fresh "Hk" in
  let e := fresh "e" in
  let k := fresh "k" in
  let s := fresh "s" in
  let o := fresh "o" in
  let co := fresh "co" in
  let Ho := fresh "Ho" in
  let Hco := fresh "Hco" in
  match goal with
  | |- context [calc_kpts ?a (?w, ?tr)] =>
      destruct (calc_kpts a (w, tr)) as [[e|k] s] eqn:E;
      apply calc_kpts_inv in E as
        [-> [[? [=]] | (o & co & [=] & Ho & Hco)]]; subst
  end.

Ltac exec_if :=
  let Hc := fresh "Hcond" in
  match goal with
  | |- context [if ?b then calc_set _ _ _ else _] => destruct b eqn:Hc
  end.

Ltac exec_set :=
  let E := fresh "Hset" in
  let e := fresh "e" in
  let w' := fresh "w" in
  let tr' := fresh "tr" in
  let o := fresh "o" in
  let co := fresh "co" in
  let Ho := fresh "Ho" in
  let Hco := fresh "Hco" in
  let Hst := fresh "Hst" in
  match goal with
  | |- context [calc_set ?a ?k ?v (?w, ?tr)] =>
      destruct (calc_set a k v (w, tr)) as [[e|[]] [w' tr']] eqn:E;
      apply calc_set_inv in E as
        [-> [(? & [=] & ?) | (o & co & [=] & Ho & Hco & Hst)]]; subst
  end.

Ltac exec_step :=
  first [ exec_external | exec_run_calc | exec_kpts | exec_if | exec_set ];
  simpl.

Ltac trace_norm :=
  rewrite ?solver_runs_app, ?resolved_calcs_app, ?stage_inputs_app,
    ?stage_flags_app, ?entered_app, ?summaries_app; simpl;
  repeat match goal with
         | Hx : solver_runs _ = _ |- _ => rewrite !Hx
         | Hx : resolved_calcs _ = _ |- _ => rewrite !Hx
         | Hx : stage_inputs _ = _ |- _ => rewrite !Hx
         | Hx : stage_flags _ = _ |- _ => rewrite !Hx
         | Hx : entered _ = _ |- _ => rewrite !Hx
         | Hx : summaries _ = _ |- _ => rewrite !Hx
         end; simpl.

Ltac unfold_recipe :=
  unfold run, bind, enter, call_SmartVasp, call_summarize_run,
    call_BFGSLineSearch, call_dyn_run, summary_getitem_atoms, call, ret, raise;
  simpl.

(** *** The restart rule *)

(** Python's [kpts == l] against a list [l] holds for that list only. *)
Lemma kpts_eq_true (k : Kpts) (l : list Z) :
  kpts_eq k l = true ↔ k = KList l.
Proof.
  destruct k as [|l'|l']; simpl; [done| |done].
  rewrite bool_decide_eq_true. split; [by intros ->|by intros [= ->]].
Qed.

Lemma kpts_eq_false (k : Kpts) (l : list Z) :
  kpts_eq k l = false ↔ k ≠ KList l.
Proof.
  rewrite <- kpts_eq_true. by destruct (kpts_eq k l).
Qed.

Lemma restart_rule_intro (tr : list Event) :
  (∀ s2, solver_runs tr !! 1%nat = Some s2 →
     ∃ c1 c2 g,
       resolved_calcs tr = [Some c1; Some c2] ∧
       given s2 =
         Some (g, Some (if kpts_eq (kpts c1) [1; 1; 1] && kpts_ne (kpts c2) [1; 1; 1]
                        then set_directive "istart" (PInt 0) c2 else c2))) →
  restart_rule tr.
Proof.
  intros Hrule s2 Hs2. destruct (Hrule s2 Hs2) as (c1 & c2 & g & Hres & Hgiven).
  exists c1, c2, g. eexists. split; [done|]. split; [exact Hgiven|].
  unfold kpts_ne.
  destruct (kpts_eq (kpts c1) _) eqn:E1, (kpts_eq (kpts c2) _) eqn:E2; simpl.
  - apply kpts_eq_true in E2. split; [by intros _ Hne|done].
  - apply kpts_eq_true in E1. apply kpts_eq_false in E2.
    split; [|by intros [Hx|Hx]]. intros _ _. split; [done|]. simpl.
    apply PyDictFacts.get_set_eq.
  - apply kpts_eq_false in E1. split; [by intros Hx|done].
  - apply kpts_eq_false in E1. split; [by intros Hx|done].
Qed.

Ltac restart_finish :=
  trace_norm; intros [= <-]; simplify_eq; simpl;
  repeat match goal with
         | Hx : calc_of _ _ = Some _ |- _ => progress rewrite Hx
         end;
  eexists _, _, _; (split; [reflexivity|]);
  match goal with Hx : _ && _ = _ |- _ => rewrite Hx end;
  first [ eassumption
        | erewrite structure_of_calc_of by eassumption; by f_equal; f_equal ].

Lemma DoubleRelaxJob_restart self atoms w :
  restart_rule (run (DoubleRelaxJob_make self atoms) w).2.2.
Proof.
  apply restart_rule_intro. intros s2.
  unfold DoubleRelaxJob_make. unfold_recipe.
  repeat (exec_step; try (trace_norm; done)).
  all: restart_finish.
Qed.

Lemma double_relax_restart atoms preset swaps volume_relax w :
  restart_rule (run (double_relax atoms preset swaps volume_relax) w).2.2.
Proof.
  apply restart_rule_intro. intros s2.
  unfold double_relax. unfold_recipe.
  repeat (exec_step; try (trace_norm; done)).
  all: restart_finish.
Qed.

(** *** Hand-off between stages *)

Ltac handoff_finish :=
  trace_norm;
  let i := fresh "i" in
  intros i;
  repeat (destruct i as [|i]; simpl; [intros ? [= <-]; eauto|]);
  by intros ? [=].

Lemma QMOFMaker_handoff self atoms w :
  handoff (run (QMOFMaker_make self atoms) w).2.2.
Proof.
  unfold handoff, QMOFMaker_make, prerelax, loose_relax_positions,
    loose_relax_volume, double_relax.
  unfold_recipe.
  destruct (QMOFMaker_volume_relax self); simpl.
  all: repeat exec_step.
  all: handoff_finish.
Qed.

Lemma DoubleRelaxJob_handoff_through_summary self atoms w :
  handoff_through_summary (run (DoubleRelaxJob_make self atoms) w).2.2.
Proof.
  unfold handoff_through_summary, DoubleRelaxJob_make. unfold_recipe.
  repeat exec_step.
  all: trace_norm; first [ done | intros ? ? [= <- <-]; eauto ].
Qed.

Lemma DoubleRelaxJob_handoff_state self atoms w :
  faithful_summarizer →
  handoff_state (run (DoubleRelaxJob_make self atoms) w).2.2.
Proof.
  intros Hsum. unfold handoff_state, DoubleRelaxJob_make. unfold_recipe.
  repeat exec_step.
  all: repeat match goal with
       | Hx : summarize_run _ _ _ = (inr _, _) |- _ =>
           apply Hsum in Hx as (? & ? & ?)
       end; simplify_eq.
  all: trace_norm; intros [|[|?]] ? ?; simpl; intros [=]; subst; eauto.
Qed.

(** *** The cascade without volume relaxation *)

Ltac cascade_finish :=
  trace_norm;
  split_and!;
  [ rewrite ?not_elem_of_cons; split_and?; first [ done | apply not_elem_of_nil ]
  | eexists; reflexivity
  | eexists; reflexivity
  | first [ by intros ? [=] | by intros ] ].

(** C7: with [volume_relax = False] the cascade never enters
    [loose_relax_volume]; the stage functions entered and the solver
    invocations made are initial segments of (pre-relaxation, loose
    positions, double relaxation) and of (optimizer run, three [run_calc]
    runs); when the cascade returns, they are exactly these: four solver
    invocations. *)
Theorem cascade_without_volume_relax self atoms w :
  QMOFMaker_volume_relax self = false →
  ("loose_relax_volume" ∉ entered (run (QMOFMaker_make self atoms) w).2.2) ∧
  (entered (run (QMOFMaker_make self atoms) w).2.2
     `prefix_of` ["prerelax"; "loose_relax_positions"; "double_relax"]) ∧
  (map trigger (solver_runs (run (QMOFMaker_make self atoms) w).2.2)
     `prefix_of` [ByOptimizer; ByRunCalc; ByRunCalc; ByRunCalc]) ∧
  (∀ summary, (run (QMOFMaker_make self atoms) w).1 = inr summary →
     entered (run (QMOFMaker_make self atoms) w).2.2
       = ["prerelax"; "loose_relax_positions"; "double_relax"] ∧
     map trigger (solver_runs (run (QMOFMaker_make self atoms) w).2.2)
       = [ByOptimizer; ByRunCalc; ByRunCalc; ByRunCalc]).
Proof.
  intros Hvr.
  unfold QMOFMaker_make, prerelax, loose_relax_positions,
    loose_relax_volume, double_relax.
  rewrite Hvr. unfold_recipe.
  repeat exec_step.
  all: cascade_finish.
Qed.

(** *** The flags handed to the calculator wrapper *)

Lemma double_relax_stage_flags atoms preset swaps volume_relax w :
  stage_flags (run (double_relax atoms preset swaps volume_relax) w).2.2
    = [Flags.double_relax_1 volume_relax swaps] ∨
  stage_flags (run (double_relax atoms preset swaps volume_relax) w).2.2
    = [Flags.double_relax_1 volume_relax swaps;
       Flags.double_relax_2 volume_relax swaps].
Proof.
  unfold double_relax. unfold_recipe.
  repeat exec_step.
  all: trace_norm; auto.
Qed.

Lemma StaticJob_stage_flags self atoms w :
  stage_flags (run (StaticJob_make self atoms) w).2.2
    = [Flags.static (StaticJob_swaps self)].
Proof.
  unfold StaticJob_make. unfold_recipe.
  repeat exec_step.
  all: trace_norm; auto.
Qed.

Lemma RelaxJob_stage_flags self atoms w :
  stage_flags (run (RelaxJob_make self atoms) w).2.2
    = [Flags.relax (RelaxJob_volume_relax self) (RelaxJob_swaps self)].
Proof.
  unfold RelaxJob_make. unfold_recipe.
  repeat exec_step.
  all: trace_norm; auto.
Qed.

(** *** Scratch sessions, presets and summaries along a recipe *)

Lemma stage_presets_app (t1 t2 : list Event) :
  stage_presets (t1 ++ t2) = stage_presets t1 ++ stage_presets t2.
Proof.
  induction t1 as [|[fn|c b r a] t1 IH]; simpl; [done|done|].
  destruct c; simpl; by rewrite ?IH.
Qed.

Lemma sessions_app (t1 t2 : list Event) :
  sessions (t1 ++ t2) = sessions t1 ++ sessions t2.
Proof.
  induction t1 as [|[fn|c b r a] t1 IH]; simpl; [done|done|].
  destruct c; simpl; by rewrite ?IH.
Qed.

Lemma session_depth_app (t1 t2 : list Event) : ∀ d,
  session_depth d (t1 ++ t2) = session_depth d t1 ≫= (λ d', session_depth d' t2).
Proof.
  induction t1 as [|[fn|c b r a] t1 IH]; intros d; simpl; [done|apply IH|].
  destruct c, d as [|[|d]]; simpl; try done; apply IH.
Qed.

(** [run_calc_trace] once more, with what the call adds to the readings
    above: one well-bracketed scratch session at most, opened with the
    keyword arguments of the call. *)
Lemma run_calc_trace_full a sd gz cp w tr r w' tr' :
  run_calc a sd gz cp (w, tr) = (r, (w', tr')) →
  ∃ new, tr' = tr ++ new ∧ entered new = [] ∧ stage_flags new = [] ∧
    stage_inputs new = [] ∧ resolved_calcs new = [] ∧ summaries new = [] ∧
    stage_presets new = [] ∧
    session_depth 0 new = Some 0%nat ∧
    Forall (λ cfg, ∃ root, cfg = scratch_cfg root gz cp) (sessions new) ∧
    ((solver_runs new = [] ∧ ∃ e, r = inl e) ∨
     (∃ a', solver_runs new =
              [ {| trigger := ByRunCalc; receiver := a';
                   given := structure_of w a; left := structure_of w' a' |} ] ∧
            ∀ x, r = inr x → x = a')).
Proof.
  rewrite run_calc_eq.
  destruct (atoms_store w !! a) as [o|] eqn:Ho.
  2:{ intros [= <- <- <-]. exists []. rewrite app_nil_r. split_and!; eauto. }
  destruct (calc o) as [c|] eqn:Hc.
  2:{ simpl. destruct (dir_or_cwd sd (ext w)); intros [= <- <- <-];
        exists []; rewrite app_nil_r; split_and!; eauto. }
  destruct (calc_store w !! c) as [co|] eqn:Hco.
  2:{ intros [= <- <- <-]. exists []. rewrite app_nil_r. split_and!; eauto. }
  simpl. destruct (scratch_root sd (ext w)) as [e|root].
  { intros [= <- <- <-]. exists []. rewrite app_nil_r. split_and!; eauto. }
  set (a' := fresh (dom (atoms_store w))).
  set (c' := fresh (dom (calc_store w))).
  set (cfg := scratch_cfg _ gz cp).
  unfold bind, with_ScratchDir, call_get_potential_energy, call, on_ext, ret. simpl.
  destruct (ScratchDir_enter cfg (ext w)) as [[e|[]] x1] eqn:Hen; simpl.
  { intros [= <- <- <-]. eexists [_]. split_and!; try reflexivity; eauto.
    repeat constructor. by eexists. }
  match goal with
  | |- context [get_potential_energy a' ?w2] =>
      destruct (get_potential_energy a' w2) as [[e|[]] w3] eqn:Hgpe
  end; simpl.
  - destruct (ScratchDir_exit cfg (Some (External e)) (ext w3)) as [[e'|[]] x3] eqn:Hex;
      simpl; intros [= <- <- <-]; rewrite <- !app_assoc; eexists;
      (split; [reflexivity|]); simpl; split_and!; try reflexivity;
      try (repeat constructor; by eexists);
      right; eexists; (split; [|by intros x [= <-]]);
      unfold a', c'; by erewrite structure_of_deepcopy.
  - destruct (ScratchDir_exit cfg None (ext w3)) as [[e'|b] x3] eqn:Hex;
      simpl; intros [= <- <- <-]; rewrite <- !app_assoc; eexists;
      (split; [reflexivity|]); simpl; split_and!; try reflexivity;
      try (repeat constructor; by eexists);
      right; eexists; (split; [|by intros x [= <-]]);
      unfold a', c'; by erewrite structure_of_deepcopy.
Qed.

Ltac exec_run_calc_full :=
  let E := fresh "Hrc" in
  let new := fresh "new" in
  let e := fresh "e" in
  let x := fresh "x" in
  let w' := fresh "w" in
  let tr' := fresh "tr" in
  let Hent := fresh "Hent" in
  let Hfl := fresh "Hfl" in
  let Hin := fresh "Hin" in
  let Hres := fresh "Hres" in
  let Hsums := fresh "Hsums" in
  let Hpre := fresh "Hpre" in
  let Hdep := fresh "Hdep" in
  let Hses := fresh "Hses" in
  let Hruns := fresh "Hruns" in
  let Hret := fresh "Hret" in
  let a' := fresh "a'" in
  match goal with
  | |- context [run_calc_default ?a (?w, ?tr)] =>
      destruct (run_calc_default a (w, tr)) as [[e|x] [w' tr']] eqn:E;
      apply run_calc_trace_full in E as
        (new & -> & Hent & Hfl & Hin & Hres & Hsums & Hpre & Hdep & Hses &
           [[Hruns [? [=]]] | [a' [Hruns Hret]]]);
      try (specialize (Hret _ eq_refl) as <-)
  end.

Ltac exec_step_full :=
  first [ exec_external | exec_run_calc_full | exec_kpts | exec_if | exec_set ];
  simpl.

Ltac trace_norm_full :=
  rewrite ?solver_runs_app, ?resolved_calcs_app, ?stage_inputs_app,
    ?stage_flags_app, ?entered_app, ?summaries_app, ?stage_presets_app,
    ?sessions_app, ?session_depth_app; simpl;
  repeat match goal with
         | Hx : solver_runs _ = _ |- _ => rewrite !Hx
         | Hx : resolved_calcs _ = _ |- _ => rewrite !Hx
         | Hx : stage_inputs _ = _ |- _ => rewrite !Hx
         | Hx : stage_flags _ = _ |- _ => rewrite !Hx
         | Hx : entered _ = _ |- _ => rewrite !Hx
         | Hx : summaries _ = _ |- _ => rewrite !Hx
         | Hx : stage_presets _ = _ |- _ => rewrite !Hx
         | Hx : session_depth _ _ = _ |- _ => rewrite !Hx
         end; simpl.

Ltac unfold_all_recipes :=
  unfold StaticJob_make, RelaxJob_make, DoubleRelaxJob_make, QMOFMaker_make,
    prerelax, loose_relax_positions, loose_relax_volume, double_relax;
  unfold_recipe.

(** In every recipe and on every outcome the scratch sessions are well
    bracketed: [get_potential_energy] only runs inside an open session, the
    calculator wrapper, the optimizer and the summarizer are only called
    outside, sessions do not nest, and none is open when the recipe returns
    or raises. *)
Theorem scratch_sessions_bracketed :
  (∀ self atoms w, session_depth 0 (run (StaticJob_make self atoms) w).2.2 = Some 0%nat) ∧
  (∀ self atoms w, session_depth 0 (run (RelaxJob_make self atoms) w).2.2 = Some 0%nat) ∧
  (∀ self atoms w,
     session_depth 0 (run (DoubleRelaxJob_make self atoms) w).2.2 = Some 0%nat) ∧
  (∀ self atoms w, session_depth 0 (run (QMOFMaker_make self atoms) w).2.2 = Some 0%nat).
Proof.
  split_and!; intros self atoms w; unfold_all_recipes.
  4: destruct (QMOFMaker_volume_relax self); simpl.
  all: repeat exec_step_full.
  all: repeat (trace_norm_full; try done).
Qed.

(** Every scratch session a recipe opens has the keyword arguments of
    [run_calc(atoms)] with its defaults: gzip on, nothing copied from the
    original directory on entry. *)
Theorem recipes_use_default_sessions :
  (∀ self atoms w, Forall default_session (sessions (run (StaticJob_make self atoms) w).2.2)) ∧
  (∀ self atoms w, Forall default_session (sessions (run (RelaxJob_make self atoms) w).2.2)) ∧
  (∀ self atoms w,
     Forall default_session (sessions (run (DoubleRelaxJob_make self atoms) w).2.2)) ∧
  (∀ self atoms w, Forall default_session (sessions (run (QMOFMaker_make self atoms) w).2.2)).
Proof.
  split_and!; intros self atoms w; unfold_all_recipes.
  4: destruct (QMOFMaker_volume_relax self); simpl.
  all: repeat exec_step_full.
  all: trace_norm_full; rewrite ?Forall_app; split_and?;
    first [ assumption | apply Forall_nil_2 ].
Qed.

(** The preset of the maker is the preset of every call of the calculator
    wrapper, in all stages of the cascade and in both relaxations of
    [DoubleRelaxJob.make]. *)
Theorem preset_reaches_every_stage :
  (∀ self atoms w,
     Forall (λ p, p = QMOFMaker_preset self)
       (stage_presets (run (QMOFMaker_make self atoms) w).2.2)) ∧
  (∀ self atoms w,
     Forall (λ p, p = DoubleRelaxJob_preset self)
       (stage_presets (run (DoubleRelaxJob_make self atoms) w).2.2)).
Proof.
  split_and!; intros self atoms w; unfold_all_recipes.
  1: destruct (QMOFMaker_volume_relax self); simpl.
  all: repeat exec_step_full.
  all: trace_norm_full; by repeat constructor.
Qed.

(** With [volume_relax = True] the stage functions entered and the solver
    invocations made are initial segments of (pre-relaxation, loose
    positions, loose volume, double relaxation) and of (optimizer run, four
    [run_calc] runs); when the cascade returns they are exactly these. *)
Theorem cascade_with_volume_relax self atoms w :
  QMOFMaker_volume_relax self = true →
  (entered (run (QMOFMaker_make self atoms) w).2.2
     `prefix_of` ["prerelax"; "loose_relax_positions"; "loose_relax_volume";
                  "double_relax"]) ∧
  (map trigger (solver_runs (run (QMOFMaker_make self atoms) w).2.2)
     `prefix_of` [ByOptimizer; ByRunCalc; ByRunCalc; ByRunCalc; ByRunCalc]) ∧
  (∀ summary, (run (QMOFMaker_make self atoms) w).1 = inr summary →
     entered (run (QMOFMaker_make self atoms) w).2.2
       = ["prerelax"; "loose_relax_positions"; "loose_relax_volume"; "double_relax"] ∧
     map trigger (solver_runs (run (QMOFMaker_make self atoms) w).2.2)
       = [ByOptimizer; ByRunCalc; ByRunCalc; ByRunCalc; ByRunCalc]).
Proof.
  intros Hvr. unfold_all_recipes. rewrite Hvr. simpl.
  repeat exec_step_full.
  all: trace_norm_full; split_and!;
    [ eexists; reflexivity | eexists; reflexivity
    | first [ by intros ? [=] | by intros ] ].
Qed.

Lemma structure_of_calc (w : World) a : structure_of w a ≫= snd = calc_of w a.
Proof.
  unfold structure_of, calc_of. by destruct (atoms_store w !! a).
Qed.

(** [QMOFMaker.make] returns the summary of the structure the last solver
    invocation ran on, and that is the only summary made; when it raises, no
    summary has been made. *)
Theorem QMOFMaker_summary self atoms w :
  match (run (QMOFMaker_make self atoms) w).1 with
  | inr summary =>
      ∃ s, last (solver_runs (run (QMOFMaker_make self atoms) w).2.2) = Some s ∧
           summaries (run (QMOFMaker_make self atoms) w).2.2 = [(receiver s, summary)]
  | inl _ => summaries (run (QMOFMaker_make self atoms) w).2.2 = []
  end.
Proof.
  unfold_all_recipes.
  destruct (QMOFMaker_volume_relax self); simpl.
  all: repeat exec_step_full.
  all: trace_norm_full; eauto.
Qed.

(** [StaticJob.make] and [RelaxJob.make], when they return: one solver
    invocation, through [run_calc], on the calculator exactly as the wrapper
    resolved it, and the result is the summary of the structure it ran on;
    when they raise, no summary has been made. *)
Theorem single_stage_recipes :
  (∀ self atoms w,
     match (run (StaticJob_make self atoms) w).1 with
     | inr summary =>
         ∃ s, solver_runs (run (StaticJob_make self atoms) w).2.2 = [s] ∧
              trigger s = ByRunCalc ∧
              resolved_calcs (run (StaticJob_make self atoms) w).2.2 = [given s ≫= snd] ∧
              summaries (run (StaticJob_make self atoms) w).2.2 = [(receiver s, summary)]
     | inl _ => summaries (run (StaticJob_make self atoms) w).2.2 = []
     end) ∧
  (∀ self atoms w,
     match (run (RelaxJob_make self atoms) w).1 with
     | inr summary =>
         ∃ s, solver_runs (run (RelaxJob_make self atoms) w).2.2 = [s] ∧
              trigger s = ByRunCalc ∧
              resolved_calcs (run (RelaxJob_make self atoms) w).2.2 = [given s ≫= snd] ∧
              summaries (run (RelaxJob_make self atoms) w).2.2 = [(receiver s, summary)]
     | inl _ => summaries (run (RelaxJob_make self atoms) w).2.2 = []
     end).
Proof.
  split; intros self atoms w; unfold_all_recipes.
  all: repeat exec_step_full.
  all: trace_norm_full; try done.
  all: eexists; split_and!; try reflexivity; simpl; by rewrite structure_of_calc.
Qed.

(** [DoubleRelaxJob.make] returns, in this order, the summaries of the
    structures the first and the second solver invocation ran on; when it
    raises, at most the first summary has been made. *)
Theorem DoubleRelaxJob_summaries self atoms w :
  match (run (DoubleRelaxJob_make self atoms) w).1 with
  | inr (summary1, summary2) =>
      ∃ s1 s2,
        solver_runs (run (DoubleRelaxJob_make self atoms) w).2.2 = [s1; s2] ∧
        summaries (run (DoubleRelaxJob_make self atoms) w).2.2
          = [(receiver s1, summary1); (receiver s2, summary2)]
  | inl _ => (length (summaries (run (DoubleRelaxJob_make self atoms) w).2.2) ≤ 1)%nat
  end.
Proof.
  unfold_all_recipes.
  repeat exec_step_full.
  all: trace_norm_full; eauto.
Qed.

(** If the first summary has no ["atoms"] entry, [DoubleRelaxJob.make]
    raises [KeyError] and the second relaxation never starts: one call of
    the calculator wrapper, one solver invocation, one summary. *)
Theorem DoubleRelaxJob_summary_without_atoms self atoms w a s :
  summaries (run (DoubleRelaxJob_make self atoms) w).2.2 !! 0%nat = Some (a, s) →
  summary_atoms s = None →
  (run (DoubleRelaxJob_make self atoms) w).1 = inl (KeyError "atoms") ∧
  summaries (run (DoubleRelaxJob_make self atoms) w).2.2 = [(a, s)] ∧
  length (stage_flags (run (DoubleRelaxJob_make self atoms) w).2.2) = 1%nat ∧
  length (solver_runs (run (DoubleRelaxJob_make self atoms) w).2.2) = 1%nat.
Proof.
  unfold_all_recipes.
  repeat exec_step_full.
  all: trace_norm_full; try done.
  all: intros [= <- <-] Hnone; first [ congruence | done ].
Qed.

(** [prerelax] opens no scratch session and triggers the solver only
    through the optimizer; when it returns, it returns the very object the
    calculator wrapper returned, on which the optimizer ran, as the
    optimizer left it. *)
Theorem prerelax_in_place atoms preset swaps fmax w :
  sessions (run (prerelax atoms preset swaps fmax) w).2.2 = [] ∧
  Forall (λ s, trigger s = ByOptimizer)
    (solver_runs (run (prerelax atoms preset swaps fmax) w).2.2) ∧
  (∀ a', (run (prerelax atoms preset swaps fmax) w).1 = inr a' →
     (∃ w1, (run (prerelax atoms preset swaps fmax) w).2.2 !! 1%nat
            = Some (Called (CSmartVasp atoms preset (Flags.prerelax swaps)) w
                      (inr (RLoc a')) w1)) ∧
     ∃ s, solver_runs (run (prerelax atoms preset swaps fmax) w).2.2 = [s] ∧
          receiver s = a' ∧
          left s = structure_of (run (prerelax atoms preset swaps fmax) w).2.1 a').
Proof.
  unfold_all_recipes.
  repeat exec_step_full.
  all: split_and!; try done; try by repeat constructor.
  intros a' [= <-]. split; eauto.
Qed.

End Traces.

(** ** [run_calc] on its own *)

Section RunCalc.
Context `{Collaborators}.


(** When line 44 raises ([scratch_dir] is [None] or empty and
    [os.getcwd()] raises), [run_calc] raises that exception, whether or not
    a calculator is attached: the check of line 45 is not reached, and no
    collaborator has been called. *)
Lemma run_calc_without_working_directory a sd gz cp w o e :
  atoms_store w !! a = Some o →
  (∀ c, calc o = Some c → is_Some (calc_store w !! c)) →
  dir_or_cwd sd (ext w) = inl e →
  (run (run_calc a sd gz cp) w).1 = inl (External e) ∧
  (run (run_calc a sd gz cp) w).2.2 = [] ∧
  ext (run (run_calc a sd gz cp) w).2.1 = ext w.
Proof.
  intros Ho Hcalc Hdir. unfold run. rewrite run_calc_eq, Ho.
  destruct (calc o) as [c|] eqn:Hc.
  - destruct (Hcalc c eq_refl) as [co ->]. unfold scratch_root. simpl.
    by rewrite Hdir.
  - simpl. by rewrite Hdir.
Qed.


(** Every object of the caller's store is as it was, whatever the outcome. *)
Lemma run_calc_frame a sd gz cp w :
  solver_footprint →
  (∀ l, is_Some (atoms_store w !! l) →
        atoms_store (run (run_calc a sd gz cp) w).2.1 !! l = atoms_store w !! l) ∧
  (∀ l, is_Some (calc_store w !! l) →
        calc_store (run (run_calc a sd gz cp) w).2.1 !! l = calc_store w !! l).
Proof.
  intros Hfp.
  unfold run. rewrite run_calc_eq.
  destruct (atoms_store w !! a) as [o|] eqn:Ho; [|done].
  assert (Hfa : ∀ l, is_Some (atoms_store w !! l) → l ≠ fresh (dom (atoms_store w))).
  { intros l Hl ->. apply elem_of_dom in Hl. by apply is_fresh in Hl. }
  assert (Hfc : ∀ l, is_Some (calc_store w !! l) → l ≠ fresh (dom (calc_store w))).
  { intros l Hl ->. apply elem_of_dom in Hl. by apply is_fresh in Hl. }
  destruct (calc o) as [c|] eqn:Hc.
  2:{ simpl. destruct (dir_or_cwd sd (ext w)); simpl; (split; [|done]);
        intros l Hl; (rewrite lookup_insert_ne; [done|]); intros E; by apply (Hfa l). }
  destruct (calc_store w !! c) as [co|] eqn:Hco; [|done].
  simpl.
  set (a' := fresh (dom (atoms_store w))) in *.
  set (c' := fresh (dom (calc_store w))) in *.
  destruct (scratch_root sd (ext w)) as [e|root]; simpl.
  { split; intros l Hl; rewrite lookup_insert_ne; try done.
    - intros E. by apply (Hfa l).
    - intros E. by apply (Hfc l). }
  unfold bind, with_ScratchDir, call_get_potential_energy, call, on_ext, ret. simpl.
  destruct (ScratchDir_enter _ _) as [[e|[]] x1]; simpl.
  { split; intros l Hl; rewrite lookup_insert_ne; try done.
    - intros E. by apply (Hfa l).
    - intros E. by apply (Hfc l). }
  match goal with
  | |- context [get_potential_energy a' ?w2] =>
      destruct (get_potential_energy a' w2) as [r w3] eqn:Hgpe
  end.
  apply Hfp in Hgpe as [Hat Hca]. simpl in Hat, Hca.
  rewrite lookup_insert_eq in Hca. simpl in Hca.
  assert (Hgoal :
    (∀ l, is_Some (atoms_store w !! l) → atoms_store w3 !! l = atoms_store w !! l) ∧
    (∀ l, is_Some (calc_store w !! l) → calc_store w3 !! l = calc_store w !! l)).
  { split; intros l Hl.
    - rewrite Hat; [rewrite lookup_insert_ne; [done|] | | ].
      + intros E. by apply (Hfa l).
      + by apply Hfa.
      + rewrite lookup_insert_ne; [done|]. intros E. by apply (Hfa l).
    - rewrite Hca; [rewrite lookup_insert_ne; [done|] | | ].
      + intros E. by apply (Hfc l).
      + intros [= E]. by apply (Hfc l).
      + rewrite lookup_insert_ne; [done|]. intros E. by apply (Hfc l). }
  destruct r as [e|[]]; simpl.
  - destruct (ScratchDir_exit _ _ _) as [[e'|[]] x3]; simpl; exact Hgoal.
  - destruct (ScratchDir_exit _ _ _) as [[e'|b] x3]; simpl; exact Hgoal.
Qed.

(** What is returned is a new object, and the one solver invocation ran on
    it: given the input structure as a value, left as it is returned. *)
Lemma run_calc_returns_copy a sd gz cp w a' :
  (run (run_calc a sd gz cp) w).1 = inr a' →
  atoms_store w !! a' = None ∧
  solver_runs (run (run_calc a sd gz cp) w).2.2 =
    [ {| trigger := ByRunCalc; receiver := a';
         given := structure_of w a;
         left := structure_of (run (run_calc a sd gz cp) w).2.1 a' |} ].
Proof.
  intros Hr. split.
  - revert Hr.
    unfold run. rewrite run_calc_eq.
    destruct (atoms_store w !! a) as [o|] eqn:Ho; [|done].
    assert (atoms_store w !! fresh (dom (atoms_store w)) = None) as Hfresh.
    { apply not_elem_of_dom, is_fresh. }
    destruct (calc o) as [c|] eqn:Hc.
    2:{ simpl. by destruct (dir_or_cwd sd (ext w)). }
    destruct (calc_store w !! c) as [co|] eqn:Hco; [|done].
    simpl. destruct (scratch_root sd (ext w)) as [e|root]; [done|].
    unfold bind, with_ScratchDir, call_get_potential_energy, call, on_ext, ret. simpl.
    destruct (ScratchDir_enter _ _) as [[e|[]] x1]; simpl; [done|].
    destruct (get_potential_energy _ _) as [[e|[]] w3]; simpl.
    + destruct (ScratchDir_exit _ _ _) as [[e'|[]] x3]; simpl; [done| |done].
      by intros [= <-].
    + destruct (ScratchDir_exit _ _ _) as [[e'|b] x3]; simpl; [done|].
      by intros [= <-].
  - unfold run in *.
    destruct (run_calc a sd gz cp (w, [])) as [r [w' tr']] eqn:Hrun.
    simpl in Hr. subst r.
    apply run_calc_trace in Hrun
      as (new & -> & _ & _ & _ & _ & _ & [[_ [e [=]]] | (x & Hruns & Hret)]).
    specialize (Hret _ eq_refl) as ->. simpl. exact Hruns.
Qed.

End RunCalc.

(** ** The scratch session of [run_calc] *)

Section RunCalcSession.
Context `{Collaborators}.

Ltac run_calc_open Ho Hc Hco :=
  unfold run; rewrite run_calc_eq, Ho, Hc, Hco; simpl.

Ltac run_calc_session :=
  unfold bind, with_ScratchDir, call_get_potential_energy, call, on_ext, ret; simpl.

(** The scratch session of a call on a structure with a calculator is
    configured and closed as [session_as_configured] says. *)
Theorem run_calc_session_config a sd gz cp w o c co :
  atoms_store w !! a = Some o → calc o = Some c → calc_store w !! c = Some co →
  session_as_configured a sd gz cp w.
Proof.
  intros Ho Hc Hco. unfold session_as_configured. run_calc_open Ho Hc Hco.
  destruct (scratch_root sd (ext w)) as [e|root]; [done|].
  assert (scratch_cfg root gz cp =
          {| rootpath := root;
             create_symbolic_link := negb (String.eqb os_name "nt");
             copy_from_current_on_enter := cp;
             copy_to_current_on_exit := true;
             gzip_on_exit := gz;
             remove_symlink_on_exit := true;
             delete_removed_files := false |}) as ->.
  { unfold scratch_cfg. by destruct (String.eqb os_name "nt"). }
  run_calc_session.
  destruct (ScratchDir_enter _ _) as [[e|[]] x1]; simpl; [reflexivity|].
  destruct (get_potential_energy _ _) as [[e|[]] w3]; simpl.
  - destruct (ScratchDir_exit _ _ _) as [[e'|[]] x3]; simpl; done.
  - destruct (ScratchDir_exit _ _ _) as [[e'|b] x3]; simpl; done.
Qed.

(** On a structure with a calculator [run_calc] returns or raises as
    [outcome_propagated] says: in particular an exception of the solver
    that the session does not suppress is raised unmodified. *)
Theorem run_calc_propagates a sd gz cp w o c co :
  atoms_store w !! a = Some o → calc o = Some c → calc_store w !! c = Some co →
  outcome_propagated a sd gz cp w.
Proof.
  intros Ho Hc Hco. unfold outcome_propagated. run_calc_open Ho Hc Hco.
  destruct (scratch_root sd (ext w)) as [e|root]; [by exists e|].
  run_calc_session.
  destruct (ScratchDir_enter _ _) as [[e|[]] x1]; simpl; [reflexivity|].
  destruct (get_potential_energy _ _) as [[e|[]] w3]; simpl.
  - destruct (ScratchDir_exit _ _ _) as [[e'|[]] x3]; simpl; reflexivity.
  - destruct (ScratchDir_exit _ _ _) as [[e'|[]] x3]; simpl; reflexivity.
Qed.

(** When the solver is triggered, it is on an object that did not exist
    before the call, whose calculator is an object that did not exist
    either, both equal to the originals, which are still in the store. *)
Theorem run_calc_solver_sees_deep_copy a sd gz cp w o c co a' before rs after :
  atoms_store w !! a = Some o → calc o = Some c → calc_store w !! c = Some co →
  Called (CGetPotentialEnergy a') before rs after ∈ (run (run_calc a sd gz cp) w).2.2 →
  atoms_store w !! a' = None ∧
  atoms_store before !! a = Some o ∧
  calc_store before !! c = Some co ∧
  ∃ c', calc_store w !! c' = None ∧
        atoms_store before !! a' = Some {| geometry := geometry o; calc := Some c' |} ∧
        calc_store before !! c' = Some co.
Proof.
  intros Ho Hc Hco.
  assert (atoms_store w !! fresh (dom (atoms_store w)) = None) as Hfa
    by apply not_elem_of_dom, is_fresh.
  assert (calc_store w !! fresh (dom (calc_store w)) = None) as Hfc
    by apply not_elem_of_dom, is_fresh.
  assert (a ≠ fresh (dom (atoms_store w))) as Hna by (intros E; congruence).
  assert (c ≠ fresh (dom (calc_store w))) as Hnc by (intros E; congruence).
  run_calc_open Ho Hc Hco.
  destruct (scratch_root sd (ext w)) as [e|root]; simpl.
  { by rewrite elem_of_nil. }
  run_calc_session.
  destruct (ScratchDir_enter _ _) as [[e|[]] x1]; simpl.
  { rewrite !elem_of_cons, elem_of_nil. by intros [[=]|[]]. }
  destruct (get_potential_energy _ _) as [[e|[]] w3]; simpl.
  - destruct (ScratchDir_exit _ _ _) as [[e'|[]] x3]; simpl;
      rewrite !elem_of_cons, elem_of_nil; intros [[=]|[[= -> -> -> ->]|[[=]|[]]]];
      simpl; rewrite ?lookup_insert_ne by done; split_and!; try done;
      exists (fresh (dom (calc_store w))); by rewrite !lookup_insert_eq.
  - destruct (ScratchDir_exit _ _ _) as [[e'|b] x3]; simpl;
      rewrite !elem_of_cons, elem_of_nil; intros [[=]|[[= -> -> -> ->]|[[=]|[]]]];
      simpl; rewrite ?lookup_insert_ne by done; split_and!; try done;
      exists (fresh (dom (calc_store w))); by rewrite !lookup_insert_eq.
Qed.

End RunCalcSession.

(** ** The concrete instance satisfies the assumptions *)

Module ToyFacts.
Import Toy.

Lemma solver_footprint_holds : solver_footprint.
Proof.
  intros a w r w'. simpl. unfold solve.
  destruct (atoms_store w !! a) as [o|] eqn:Ho; [|by intros [= <- <-]].
  destruct (calc o) as [c|] eqn:Hc; [|by intros [= <- <-]].
  destruct (calc_store w !! c) as [co|] eqn:Hco; [|by intros [= <- <-]].
  destruct (PyDict.get "fail" (directives co)); intros [= <- <-]; [done|].
  simpl. split; intros l Hne _.
  - by rewrite lookup_insert_ne.
  - rewrite lookup_insert_ne; [done|]. intros ->. by rewrite Hc in Hne.
Qed.

Lemma faithful_summarizer_holds : faithful_summarizer.
Proof. intros a fields w s w' [= <- <-]. by exists a. Qed.

End ToyFacts.

(** * The claims *)

Section Claims.
Context `{Collaborators}.

(** The restart rule as the code has it: in both double-relaxation
    patterns ([DoubleRelaxJob.make] and [double_relax] of qmof.py), when the
    second solver invocation takes place the calculator it runs on has
    [istart] set to 0 if the grid resolved for the first stage is the list
    [[1, 1, 1]] and the grid resolved for the second stage is not that
    list; for every other pair of grids, among them a first grid that is
    the tuple [(1, 1, 1)], it is exactly the calculator the wrapper
    resolved for the second stage. *)
Theorem restart_directive_rule :
  (∀ self atoms w,
     restart_rule (run (DoubleRelaxJob_make self atoms) w).2.2) ∧
  (∀ atoms preset swaps volume_relax w,
     restart_rule (run (double_relax atoms preset swaps volume_relax) w).2.2).
Proof.
  split.
  - apply DoubleRelaxJob_restart.
  - apply double_relax_restart.
Qed.


(** C4: the static recipe with the override [{"nedos": None}] resolves the
    defaults without the key [nedos], every other key with its default
    value and in the order of the defaults, and this is the mapping handed
    to the calculator wrapper. *)
Theorem static_nedos_override name preset atoms w :
  Flags.static (Some [("nedos", PNone)]) =
    [ ("ismear", PInt (-5)); ("isym", PInt 2); ("laechg", PBool true);
      ("lcharg", PBool true); ("lwave", PBool true);
      ("nsw", PInt 0); ("sigma", PFloat 5 (-2)) ] ∧
  Flags.static (Some [("nedos", PNone)]) = PyDict.del "nedos" Defaults.static ∧
  PyDict.get "nedos" (Flags.static (Some [("nedos", PNone)])) = None ∧
  stage_flags
    (run (StaticJob_make {| StaticJob_name := name;
                            StaticJob_preset := preset;
                            StaticJob_swaps := Some [("nedos", PNone)] |} atoms) w).2.2
    = [Flags.static (Some [("nedos", PNone)])].
Proof.
  split_and!; try reflexivity.
  apply (StaticJob_stage_flags
           {| StaticJob_name := name; StaticJob_preset := preset;
              StaticJob_swaps := Some [("nedos", PNone)] |}).
Qed.

(** C5: provided the solver trigger writes only to its receiver and the
    calculator attached to it, every object of the caller's store, in
    particular the structure passed in and its calculator, is after the
    call what it was before, on every outcome; what [run_calc] returns is
    an object that did not exist before, on which the solver ran: a copy
    equal to the input when the solver was invoked, returned as the solver
    left it. *)
Theorem run_calc_copy_on_call a sd gz cp w :
  solver_footprint →
  (∀ l, is_Some (atoms_store w !! l) →
        atoms_store (run (run_calc a sd gz cp) w).2.1 !! l = atoms_store w !! l) ∧
  (∀ l, is_Some (calc_store w !! l) →
        calc_store (run (run_calc a sd gz cp) w).2.1 !! l = calc_store w !! l) ∧
  (∀ a', (run (run_calc a sd gz cp) w).1 = inr a' →
     atoms_store w !! a' = None ∧
     solver_runs (run (run_calc a sd gz cp) w).2.2 =
       [ {| trigger := ByRunCalc; receiver := a';
            given := structure_of w a;
            left := structure_of (run (run_calc a sd gz cp) w).2.1 a' |} ]).
Proof.
  intros Hfp. destruct (run_calc_frame a sd gz cp w Hfp) as [Hat Hca].
  split_and!; [exact Hat | exact Hca |].
  intros a' Hr. by apply run_calc_returns_copy.
Qed.

(** C6: in the cascade every stage after the first is handed the very
    object the previous solver invocation ran on, in the state that
    invocation left it in.  In [DoubleRelaxJob.make] the second stage is
    handed [summary1["atoms"]], where [summary1] summarises the structure
    the first solver invocation ran on; provided the summarizer keeps the
    state of the structure it summarises, the second stage is handed the
    state the first solver invocation left. *)
Theorem stage_handoff :
  (∀ self atoms w, handoff (run (QMOFMaker_make self atoms) w).2.2) ∧
  (∀ self atoms w,
     handoff_through_summary (run (DoubleRelaxJob_make self atoms) w).2.2) ∧
  (faithful_summarizer →
   ∀ self atoms w, handoff_state (run (DoubleRelaxJob_make self atoms) w).2.2).
Proof.
  split_and!.
  - apply QMOFMaker_handoff.
  - apply DoubleRelaxJob_handoff_through_summary.
  - intros Hsum self atoms w. by apply DoubleRelaxJob_handoff_state.
Qed.

(** C10: when the user swaps do not mention [lreal], the first production
    relaxation of [double_relax] resolves [lreal = "auto"], the second
    resolves no [lreal] at all, and the second flags are the first ones
    with the entry [lreal] removed; these are the flags handed to the
    calculator wrapper, in this order. *)
Theorem double_relax_lreal atoms preset swaps volume_relax w :
  PyDict.get "lreal" (or_empty swaps) = None →
  PyDict.get "lreal" (Flags.double_relax_1 volume_relax swaps) = Some (PStr "auto") ∧
  PyDict.get "lreal" (Flags.double_relax_2 volume_relax swaps) = None ∧
  Flags.double_relax_2 volume_relax swaps
    = PyDict.del "lreal" (Flags.double_relax_1 volume_relax swaps) ∧
  (stage_flags (run (double_relax atoms preset swaps volume_relax) w).2.2
     = [Flags.double_relax_1 volume_relax swaps] ∨
   stage_flags (run (double_relax atoms preset swaps volume_relax) w).2.2
     = [Flags.double_relax_1 volume_relax swaps;
        Flags.double_relax_2 volume_relax swaps]).
Proof.
  intros Hsw.
  assert (Flags.double_relax_2 volume_relax swaps
          = PyDict.del "lreal" (Flags.double_relax_1 volume_relax swaps)) as Heq.
  { unfold Flags.double_relax_1, Flags.double_relax_2.
    rewrite !PyDictFacts.merge_two, PyDictFacts.update_del_comm by done.
    apply PyDictFacts.remove_none_del_comm. }
  split_and!.
  - unfold Flags.double_relax_1. rewrite PyDictFacts.merge_two.
    apply PyDictFacts.get_remove_none_some; [|done].
    rewrite PyDictFacts.get_update_absent by done. by destruct volume_relax.
  - rewrite Heq. apply PyDictFacts.get_del_eq.
  - exact Heq.
  - apply double_relax_stage_flags.
Qed.

End Claims.

(** C9 (as amended): merging a defaults mapping with no override layer, or
    with an empty one, returns it verbatim when [remove_none] is off or no
    value of the mapping is [None]; with [remove_none] on, the result is the
    mapping without its [None]-valued keys, the others in their order.  With
    [swaps = None] the recipes of core.py, [loose_relax_volume] and both
    relaxations of [double_relax] (the second after its [del]) resolve
    exactly their defaults; [prerelax] and [loose_relax_positions] resolve
    their defaults without [encut]. *)
Theorem merge_without_overrides :
  (∀ D rn, rn = false ∨ PyDict.none_free D →
     merge_dicts [D] rn = D ∧ merge_dicts [D; []] rn = D) ∧
  (∀ D, merge_dicts [D] true = PyDict.remove_none D ∧
        merge_dicts [D; []] true = PyDict.remove_none D) ∧
  (∀ vr, Flags.static None = Defaults.static ∧
         Flags.relax vr None = Defaults.relax vr ∧
         Flags.double_relax_job vr None = Defaults.double_relax_job vr ∧
         Flags.loose_relax_volume None = Defaults.loose_relax_volume ∧
         Flags.double_relax_1 vr None = Defaults.double_relax vr ∧
         Flags.double_relax_2 vr None = PyDict.del "lreal" (Defaults.double_relax vr)) ∧
  Flags.prerelax None = PyDict.del "encut" Defaults.prerelax ∧
  Flags.loose_relax_positions None = PyDict.del "encut" Defaults.loose_relax_positions.
Proof.
  split_and!.
  - intros D rn [-> | Hnf]; [done|].
    unfold merge_dicts. simpl. destruct rn; [|done].
    by rewrite PyDictFacts.remove_none_id.
  - done.
  - intros vr. by destruct vr.
  - reflexivity.
  - reflexivity.
Qed.

(** C9 as stated fails: the defaults of [prerelax] contain [encut: None],
    which the merge of the recipe drops even when there is no override. *)
Lemma merge_without_overrides_counterexample :
  merge_dicts [Defaults.prerelax] true ≠ Defaults.prerelax ∧
  merge_dicts [Defaults.prerelax; []] true ≠ Defaults.prerelax ∧
  Flags.prerelax None ≠ Defaults.prerelax.
Proof. split_and!; discriminate. Qed.

(** * The claims on the concrete instance *)

Section Witnesses.
Import Toy.

Lemma restart_directive_rule_witness :
  ∃ s2 g c,
    solver_runs double_trace !! 1%nat = Some s2 ∧
    given s2 = Some (g, Some c) ∧
    PyDict.get "istart" (directives c) = Some (PInt 0).
Proof.
  eexists.
  edestruct (proj1 restart_directive_rule double_job 1%positive world0)
    as (c1 & c2 & g & c & Hres & Hgiven & Hset & _);
    [vm_compute; reflexivity|].
  exists g, c. split; [vm_compute; reflexivity|]. split; [exact Hgiven|].
  vm_compute in Hres. injection Hres as <- <-.
  apply Hset; [reflexivity|discriminate].
Defined.


Lemma run_calc_copy_on_call_witness :
  solver_footprint ∧
  atoms_store (run (run_calc 1%positive None true false) world1).2.1 !! 1%positive
    = atoms_store world1 !! 1%positive ∧
  calc_store (run (run_calc 1%positive None true false) world1).2.1 !! 1%positive
    = calc_store world1 !! 1%positive.
Proof.
  split; [exact ToyFacts.solver_footprint_holds|].
  destruct (run_calc_copy_on_call 1%positive None true false world1
              ToyFacts.solver_footprint_holds) as (Hat & Hca & _).
  split; [apply Hat | apply Hca]; vm_compute; eexists; reflexivity.
Defined.

Lemma stage_handoff_witness :
  faithful_summarizer ∧
  ∃ a st s,
    stage_inputs double_trace !! 1%nat = Some (a, st) ∧
    solver_runs double_trace !! 0%nat = Some s ∧
    st = left s.
Proof.
  split; [exact ToyFacts.faithful_summarizer_holds|].
  edestruct (proj2 (proj2 stage_handoff) ToyFacts.faithful_summarizer_holds
               double_job 1%positive world0 0%nat) as (s & Hs & Hst);
    [vm_compute; reflexivity|].
  eexists _, _, s. split_and!; [vm_compute; reflexivity | exact Hs | exact Hst].
Defined.

Lemma cascade_without_volume_relax_witness :
  QMOFMaker_volume_relax qmof_job = false ∧
  map trigger (solver_runs cascade_trace)
    = [ByOptimizer; ByRunCalc; ByRunCalc; ByRunCalc] ∧
  "loose_relax_volume" ∉ entered cascade_trace.
Proof.
  split; [reflexivity|].
  destruct (cascade_without_volume_relax qmof_job 1%positive world0 eq_refl)
    as (Hnot & _ & _ & Hok).
  split; [|exact Hnot].
  edestruct Hok as [_ Htr]; [vm_compute; reflexivity | exact Htr].
Defined.

Lemma double_relax_lreal_witness :
  PyDict.get "lreal" (or_empty (Some [("ediff", PFloat 1 (-6))])) = None ∧
  PyDict.get "lreal" (Flags.double_relax_1 true (Some [("ediff", PFloat 1 (-6))]))
    = Some (PStr "auto") ∧
  PyDict.get "lreal" (Flags.double_relax_2 true (Some [("ediff", PFloat 1 (-6))]))
    = None.
Proof.
  split; [reflexivity|].
  destruct (double_relax_lreal 1%positive (Some "QMOFSet")
              (Some [("ediff", PFloat 1 (-6))]) true world0 eq_refl)
    as (H1 & H2 & _).
  split; [exact H1 | exact H2].
Defined.

End Witnesses.

Lemma merge_without_overrides_witness :
  PyDict.none_free Defaults.static ∧
  merge_dicts [Defaults.static] true = Defaults.static ∧
  merge_dicts [Defaults.static; []] true = Defaults.static.
Proof.
  assert (PyDict.none_free Defaults.static) as Hnf by (repeat constructor).
  split; [exact Hnf|].
  apply (proj1 merge_without_overrides Defaults.static true). by right.
Defined.

(** * Further properties on the concrete instances *)

Section MoreWitnesses.
Import Toy.

Lemma run_calc_session_config_witness :
  atoms_store world1 !! 1%positive
    = Some {| geometry := 10; calc := Some 1%positive |} ∧
  session_as_configured 1%positive None true false world1 ∧
  session_as_configured 1%positive (Some "") false true world1.
Proof.
  assert (atoms_store world1 !! 1%positive
          = Some {| geometry := 10; calc := Some 1%positive |}) as Ho
    by (vm_compute; reflexivity).
  split; [exact Ho|].
  split; eapply run_calc_session_config; first [ exact Ho | vm_compute; reflexivity ].
Defined.

Lemma run_calc_propagates_witness :
  atoms_store world1 !! 1%positive
    = Some {| geometry := 10; calc := Some 1%positive |} ∧
  outcome_propagated 1%positive None true false world1.
Proof.
  assert (atoms_store world1 !! 1%positive
          = Some {| geometry := 10; calc := Some 1%positive |}) as Ho
    by (vm_compute; reflexivity).
  split; [exact Ho|].
  eapply run_calc_propagates; first [ exact Ho | vm_compute; reflexivity ].
Defined.

Lemma run_calc_solver_sees_deep_copy_witness :
  ∃ before rs after,
    Called (CGetPotentialEnergy 2%positive) before rs after
      ∈ (run (run_calc 1%positive None true false) world1).2.2 ∧
    atoms_store world1 !! 2%positive = None ∧
    atoms_store before !! 1%positive
      = Some {| geometry := 10; calc := Some 1%positive |}.
Proof.
  eexists _, _, _.
  eassert (Called (CGetPotentialEnergy 2%positive) _ _ _
             ∈ (run (run_calc 1%positive None true false) world1).2.2) as Hin.
  { eapply list_elem_of_lookup_2 with (i := 1%nat). vm_compute. reflexivity. }
  split; [exact Hin|].
  eassert (atoms_store world1 !! 1%positive = Some _) as Ho
    by (vm_compute; reflexivity).
  eassert (calc_store world1 !! 1%positive = Some _) as Hco
    by (vm_compute; reflexivity).
  destruct (run_calc_solver_sees_deep_copy 1%positive None true false world1
              _ 1%positive _ 2%positive _ _ _ Ho eq_refl Hco Hin)
    as (Hfresh & Horig & _).
  split; [exact Hfresh | exact Horig].
Defined.

Lemma cascade_with_volume_relax_witness :
  QMOFMaker_volume_relax ToyVolume.qmof_job = true ∧
  entered (run (QMOFMaker_make ToyVolume.qmof_job 1%positive) world0).2.2
    = ["prerelax"; "loose_relax_positions"; "loose_relax_volume"; "double_relax"] ∧
  map trigger (solver_runs (run (QMOFMaker_make ToyVolume.qmof_job 1%positive) world0).2.2)
    = [ByOptimizer; ByRunCalc; ByRunCalc; ByRunCalc; ByRunCalc].
Proof.
  split; [reflexivity|].
  destruct (cascade_with_volume_relax ToyVolume.qmof_job 1%positive world0 eq_refl)
    as (_ & _ & Hok).
  eapply Hok. vm_compute. reflexivity.
Defined.

Lemma prerelax_in_place_witness :
  (run (prerelax 1%positive None None (PFloat 50 (-1))) world0).1 = inr 1%positive ∧
  ∃ s, solver_runs (run (prerelax 1%positive None None (PFloat 50 (-1))) world0).2.2
         = [s] ∧
       receiver s = 1%positive.
Proof.
  assert ((run (prerelax 1%positive None None (PFloat 50 (-1))) world0).1
          = inr 1%positive) as Hr by (vm_compute; reflexivity).
  split; [exact Hr|].
  destruct (proj2 (proj2 (prerelax_in_place 1%positive None None (PFloat 50 (-1))
                            world0)) _ Hr) as (_ & s & Hs & Hrec & _).
  exists s. split; [exact Hs | exact Hrec].
Defined.

End MoreWitnesses.

Section WitnessesAse.
Import ToyAse.

(** C1, where the code departs from it: the first stage resolves the grid
    of a calculator that was given none, the tuple [(1, 1, 1)], and the
    second stage resolves [[2, 2, 2]]; the test [kpts1 == [1, 1, 1]] of
    [DoubleRelaxJob.make] is false for the tuple, and the second solver
    invocation runs on the calculator as the wrapper resolved it, with no
    [istart]. *)
Lemma restart_directive_missed_for_tuple :
  ∃ c1 c2 s2 g,
    resolved_calcs ToyAse.double_trace = [Some c1; Some c2] ∧
    kpts c1 = KTuple [1; 1; 1] ∧
    kpts c2 = KList [2; 2; 2] ∧
    solver_runs ToyAse.double_trace !! 1%nat = Some s2 ∧
    given s2 = Some (g, Some c2) ∧
    PyDict.get "istart" (directives c2) = None.
Proof.
  eexists _, _, _, _. split_and!; vm_compute; reflexivity.
Qed.

End WitnessesAse.

Section WitnessesWithoutCwd.
Import ToyNoCwd.

Lemma run_calc_without_working_directory_witness :
  atoms_store Toy.world0 !! 1%positive = Some {| geometry := 10; calc := None |} ∧
  dir_or_cwd None (ext Toy.world0) = inl "FileNotFoundError" ∧
  (run (run_calc 1%positive None true false) Toy.world0).1
    = inl (External "FileNotFoundError") ∧
  (run (run_calc 1%positive None true false) Toy.world0).2.2 = [].
Proof.
  assert (atoms_store Toy.world0 !! 1%positive
          = Some {| geometry := 10; calc := None |}) as Ho
    by (vm_compute; reflexivity).
  split; [exact Ho|]. split; [reflexivity|].
  destruct (run_calc_without_working_directory 1%positive None true false
              Toy.world0 _ "FileNotFoundError" Ho) as (Hr & Htr & _);
    [by intros c [=] | reflexivity |].
  split; [exact Hr | exact Htr].
Defined.

End WitnessesWithoutCwd.

Section WitnessesWithoutAtoms.
Import ToyNoAtoms.

Lemma DoubleRelaxJob_summary_without_atoms_witness :
  ∃ a s,
    summaries (run (DoubleRelaxJob_make Toy.double_job 1%positive) Toy.world0).2.2
      !! 0%nat = Some (a, s) ∧
    summary_atoms s = None ∧
    (run (DoubleRelaxJob_make Toy.double_job 1%positive) Toy.world0).1
      = inl (KeyError "atoms").
Proof.
  eexists _, _.
  eassert (summaries (run (DoubleRelaxJob_make Toy.double_job 1%positive) Toy.world0).2.2
             !! 0%nat = Some (_, _)) as Hs by (vm_compute; reflexivity).
  split; [exact Hs|]. split; [reflexivity|].
  exact (proj1 (DoubleRelaxJob_summary_without_atoms Toy.double_job 1%positive
                  Toy.world0 _ _ Hs eq_refl)).
Defined.

End WitnessesWithoutAtoms.
